(** * Voice-assistant command dispatch core: a shallow embedding

  The development follows the Python sources
  - [voice_assistant/core/exceptions.py]  (exception classes),
  - [voice_assistant/commands/base.py]    (handler interface, registry),
  - [voice_assistant/config/settings.py]  (configuration records),
  - [voice_assistant/core/assistant.py]   (orchestrator),
  and proves properties of the dispatch engine and of the
  configuration model.

  A call ends in an [outcome]: it returns, raises an instance of
  [Exception], or is interrupted by an exception outside [Exception].
  Code with effects runs in the monad [M], whose state holds the world
  the handlers act on and the trace of log records and [execute]
  calls. *)

From Stdlib Require Import ZArith NArith Ascii String Bool Lia.
From Stdlib Require Import Numbers.DecimalString.
From stdpp Require Import base decidable option list strings gmap.

Set Default Proof Using "Type".

(** ** Python [str]

  A Python string is modelled by [string]; a character stands for the
  code point of the same number, so the model covers the strings whose
  code points are below 256 (the Latin-1 range).  On that range
  [str.lower] maps one character to one character. *)
Module PyStr.

(** [str.isspace] on one code point below 256: TAB..CR, FS..US, space,
    NEL (0x85) and NBSP (0xA0). *)
Definition is_space (c : ascii) : bool :=
  let n := N_of_ascii c in
  ((9 <=? n) && (n <=? 13) || (28 <=? n) && (n <=? 32)
   || (n =? 133) || (n =? 160))%N.

(** [str.lower] on one code point below 256: A..Z and the accented
    capitals 0xC0..0xDE (the multiplication sign 0xD7 apart) move up
    by 32. *)
Definition lower_char (c : ascii) : ascii :=
  let n := N_of_ascii c in
  if ((65 <=? n) && (n <=? 90)
      || (192 <=? n) && (n <=? 222) && negb (n =? 215))%N
  then ascii_of_N (n + 32) else c.

(** [s.lower()] *)
Fixpoint lower (s : string) : string :=
  match s with
  | EmptyString => EmptyString
  | String c s' => String (lower_char c) (lower s')
  end.

(** [s.lstrip()] *)
Fixpoint lstrip (s : string) : string :=
  match s with
  | EmptyString => EmptyString
  | String c s' => if is_space c then lstrip s' else s
  end.

(** [s.rstrip()] *)
Fixpoint rstrip (s : string) : string :=
  match s with
  | EmptyString => EmptyString
  | String c s' =>
      match rstrip s' with
      | EmptyString => if is_space c then EmptyString else String c EmptyString
      | r => String c r
      end
  end.

(** [s.strip()] *)
Definition strip (s : string) : string := rstrip (lstrip s).

(** [s.startswith(p)] *)
Fixpoint startswith (s p : string) : bool :=
  match p, s with
  | EmptyString, _ => true
  | String _ _, EmptyString => false
  | String a p', String b s' => if ascii_dec a b then startswith s' p' else false
  end.

(** [s[n:]] for [0 <= n] *)
Fixpoint slice_from (n : nat) (s : string) : string :=
  match n, s with
  | O, _ => s
  | S _, EmptyString => EmptyString
  | S n', String _ s' => slice_from n' s'
  end.

(** [p in s] *)
Fixpoint contains (s p : string) : bool :=
  startswith s p ||
  match s with
  | EmptyString => false
  | String _ s' => contains s' p
  end.

(** [len(s)] *)
Abbreviation len := String.length.

(** Two characters are the same letter, in either case. *)
Definition same_letter (a b : ascii) : Prop :=
  a = b \/ lower_char a = b \/ a = lower_char b.

(** Two strings that differ only in letter case. *)
Inductive differ_only_in_case : string -> string -> Prop :=
| doic_nil : differ_only_in_case "" ""
| doic_cons a b s t :
    same_letter a b -> differ_only_in_case s t ->
    differ_only_in_case (String a s) (String b t).

(** A string that [strip] leaves alone. *)
Definition trimmed (s : string) : Prop := strip s = s.

End PyStr.


(** ** Python values, exceptions and outcomes *)

(** The values the model passes around: [None], booleans, integers and
    strings (the scalars of the JSON form, and what a handler's
    [execute] returns). *)
Inductive py_value :=
| VNone
| VBool (b : bool)
| VInt (z : Z)
| VStr (s : string).

#[global] Instance py_value_eq_dec : EqDecision py_value.
Proof. solve_decision. Defined.

(** [bool(v)] *)
Definition truthy (v : py_value) : bool :=
  match v with
  | VNone => false
  | VBool b => b
  | VInt z => negb (z =? 0)%Z
  | VStr s => negb (String.eqb s "")
  end.

(** [str(v)], as an f-string formats it *)
Definition py_str (v : py_value) : string :=
  match v with
  | VNone => "None"
  | VBool true => "True"
  | VBool false => "False"
  | VInt z => NilZero.string_of_int (Z.to_int z)
  | VStr s => s
  end.

(** [type(v).__name__] *)
Definition type_name (v : py_value) : string :=
  match v with
  | VNone => "NoneType"
  | VBool _ => "bool"
  | VInt _ => "int"
  | VStr _ => "str"
  end.

(** [Optional[Dict[str, Any]]], the [context] argument *)
Abbreviation context_t := (option (gmap string py_value)).

(** The classes of [core/exceptions.py], with the built-in classes the
    code names ([Exception], [TypeError]) and a tag for any other
    built-in subclass of [Exception]. *)
Inductive exc_class :=
| Exception
| TypeError
| OtherBuiltinError (name : string)
| VoiceAssistantError
| ConfigurationError
| SpeechRecognitionError
| CommandExecutionError
| DeviceConnectionError
| ApplicationLaunchError
| SystemCommandError.

#[global] Instance exc_class_eq_dec : EqDecision exc_class.
Proof. solve_decision. Defined.

(** The direct base class inside the hierarchy rooted at [Exception]. *)
Definition base_class (c : exc_class) : option exc_class :=
  match c with
  | Exception => None
  | TypeError | OtherBuiltinError _ | VoiceAssistantError => Some Exception
  | ConfigurationError | SpeechRecognitionError | CommandExecutionError
  | DeviceConnectionError | ApplicationLaunchError | SystemCommandError =>
      Some VoiceAssistantError
  end.

(** [issubclass(c, d)]; the hierarchy is two levels deep. *)
Definition issubclass (c d : exc_class) : bool :=
  bool_decide (c = d)
  || match base_class c with
     | Some b =>
         bool_decide (b = d)
         || match base_class b with
            | Some b' => bool_decide (b' = d)
            | None => false
            end
     | None => false
     end.

(** An exception instance that derives from [Exception]: its class and
    [str(e)] (for a [VoiceAssistantError] the [message] it was built
    with; [error_code] is never passed in this code base). *)
Record py_exception := mk_exc { exc_type : exc_class; exc_str : string }.

(** The exceptions that derive from [BaseException] only, which
    [except Exception] lets through. *)
Inductive py_interrupt := KeyboardInterrupt | SystemExit.

(** How a call ends. *)
Inductive outcome (A : Type) :=
| Return (a : A)
| Raise (e : py_exception)
| Interrupt (i : py_interrupt).
Arguments Return {A} a.
Arguments Raise {A} e.
Arguments Interrupt {A} i.

#[global] Instance outcome_ret : MRet outcome := fun A a => Return a.
#[global] Instance outcome_bind : MBind outcome := fun A B f m =>
  match m with
  | Return a => f a
  | Raise e => Raise e
  | Interrupt i => Interrupt i
  end.

(** [try: body except C as e: handler e] without state *)
Definition try_except_pure {A} (body : outcome A) (C : exc_class)
    (handler : py_exception -> outcome A) : outcome A :=
  match body with
  | Raise e => if issubclass (exc_type e) C then handler e else Raise e
  | r => r
  end.

(** A list comprehension whose element expression can raise. *)
Fixpoint comprehension {A B} (f : A -> outcome B) (l : list A) : outcome (list B) :=
  match l with
  | [] => Return []
  | x :: l' => y ← f x; ys ← comprehension f l'; Return (y :: ys)
  end.

(** A [for] loop whose body can raise. *)
Fixpoint for_each {A} (f : A -> outcome unit) (l : list A) : outcome unit :=
  match l with
  | [] => Return tt
  | x :: l' => f x;; for_each f l'
  end.

(** ** [commands/base.py]: the handler interface *)

(** The abstract class [Command].  [H] is the type of handler objects,
    compared by identity ([==] on objects that define no [__eq__]);
    [World] is whatever the handlers act on.  [can_handle] only reads
    its argument; [execute] acts on the world and returns or raises. *)
Class Command (H World : Type) := {
  can_handle : H -> string -> bool;
  execute : H -> string -> context_t -> World -> outcome py_value * World;
  command_patterns : H -> list string;
  description : H -> string;
  (** [handler.__class__.__name__] *)
  class_name : H -> string;
}.

(** ** Effects: the log and the calls made on handlers *)

Inductive logging_level := INFO | WARNING | ERROR.

Inductive event (H : Type) :=
| Logged (logger : string) (level : logging_level) (msg : string)
| Executed (h : H) (command : string) (context : context_t).
Arguments Logged {H} logger level msg.
Arguments Executed {H} h command context.

Record state (H World : Type) := mk_state {
  world : World;
  trace : list (event H);
}.
Arguments mk_state {H World} world trace.
Arguments world {H World} s.
Arguments trace {H World} s.

(** A computation that reads and extends the state, and returns or raises. *)
Definition M (H World A : Type) : Type := state H World -> outcome A * state H World.

Section Monad.
Context {H World : Type}.

#[global] Instance M_ret : MRet (M H World) := fun A a st => (Return a, st).
#[global] Instance M_bind : MBind (M H World) := fun A B f m st =>
  match m st with
  | (Return a, st') => f a st'
  | (Raise e, st') => (Raise e, st')
  | (Interrupt i, st') => (Interrupt i, st')
  end.

(** [raise e] *)
Definition raise {A} (e : py_exception) : M H World A := fun st => (Raise e, st).

(** [logging.getLogger(logger).log(level, msg)] *)
Definition log (logger : string) (level : logging_level) (msg : string) : M H World unit :=
  fun st => (Return tt, mk_state (world st) (trace st ++ [Logged logger level msg])).

(** [try: body except ...: ...]; [clauses e] is the body of the first
    [except] clause that matches [e], if one does. *)
Definition try_except {A} (body : M H World A)
    (clauses : py_exception -> option (M H World A)) : M H World A :=
  fun st =>
    match body st with
    | (Raise e, st') =>
        match clauses e with
        | Some k => k st'
        | None => (Raise e, st')
        end
    | r => r
    end.

End Monad.

(** ** [commands/base.py]: [CommandRegistry] *)

Section Registry.
Context {H World : Type} `{EqDecision H} `{Command H World}.

Record CommandRegistry := mk_registry {
  _commands : list H;
  wake_word : string;
}.

Definition registry_logger : string := "CommandRegistry".

(** [CommandRegistry.__init__] *)
Definition CommandRegistry_init (wake_word : string) : CommandRegistry :=
  {| _commands := []; wake_word := PyStr.lower wake_word |}.

(** [handler.execute(command, context)], recorded in the trace *)
Definition call_execute (h : H) (command : string) (context : context_t) : M H World py_value :=
  fun st =>
    let (r, w) := execute h command context (world st) in
    (r, mk_state w (trace st ++ [Executed h command context])).

(** [list.remove(x)]: drop the first element equal to [x] *)
Fixpoint list_remove (x : H) (l : list H) : list H :=
  match l with
  | [] => []
  | y :: l' => if decide (y = x) then l' else y :: list_remove x l'
  end.

(** [CommandRegistry.register] *)
Definition register (reg : CommandRegistry) (command : H) : M H World CommandRegistry :=
  let reg' := {| _commands := _commands reg ++ [command]; wake_word := wake_word reg |} in
  log registry_logger INFO ("Registered command handler: " +:+ class_name command);;
  mret reg'.

(** [CommandRegistry.unregister] *)
Definition unregister (reg : CommandRegistry) (command : H) : M H World CommandRegistry :=
  if decide (command ∈ _commands reg) then
    let reg' := {| _commands := list_remove command (_commands reg);
                   wake_word := wake_word reg |} in
    log registry_logger INFO ("Unregistered command handler: " +:+ class_name command);;
    mret reg'
  else mret reg.

(** [CommandRegistry.has_wake_word] *)
Definition has_wake_word (reg : CommandRegistry) (command : string) : bool :=
  let command_lower := PyStr.strip (PyStr.lower command) in
  PyStr.startswith command_lower (wake_word reg).

(** [CommandRegistry.remove_wake_word] *)
Definition remove_wake_word (reg : CommandRegistry) (command : string) : string :=
  let command_lower := PyStr.strip (PyStr.lower command) in
  if PyStr.startswith command_lower (wake_word reg) then
    let actual_command :=
      PyStr.strip (PyStr.slice_from (PyStr.len (wake_word reg)) command_lower) in
    actual_command
  else command_lower.

(** The loop of [get_handler]: the first handler that accepts. *)
Fixpoint first_accepting (handlers : list H) (actual_command : string) : option H :=
  match handlers with
  | [] => None
  | cmd_handler :: rest =>
      if can_handle cmd_handler actual_command then Some cmd_handler
      else first_accepting rest actual_command
  end.

(** [CommandRegistry.get_handler] *)
Definition get_handler (reg : CommandRegistry) (command : string) : option H :=
  if negb (has_wake_word reg command) then None
  else
    let actual_command := remove_wake_word reg command in
    first_accepting (_commands reg) actual_command.

(** [CommandRegistry.execute_command] *)
Definition execute_command (reg : CommandRegistry) (command : string)
    (context : context_t) : M H World py_value :=
  if negb (has_wake_word reg command) then
    raise (mk_exc CommandExecutionError
             ("Command must start with wake word '" +:+ wake_word reg +:+ "': " +:+ command))
  else
    match get_handler reg command with
    | None =>
        raise (mk_exc CommandExecutionError ("No handler found for command: " +:+ command))
    | Some handler =>
        let actual_command := remove_wake_word reg command in
        try_except (call_execute handler actual_command context)
          (fun e =>
             if issubclass (exc_type e) Exception then
               Some (log registry_logger ERROR
                       ("Error executing command '" +:+ command +:+ "': " +:+ exc_str e);;
                     raise (mk_exc CommandExecutionError
                              ("Failed to execute command: " +:+ exc_str e)))
             else None)
    end.

(** One entry of the dictionary [list_commands] returns. *)
Record command_info := mk_info {
  info_patterns : list string;
  info_description : string;
  info_wake_word : string;
}.

(** [CommandRegistry.list_commands] *)
Definition list_commands (reg : CommandRegistry) : gmap string command_info :=
  foldl (fun commands cmd_handler =>
           let patterns_with_wake_word :=
             (fun pattern => wake_word reg +:+ " " +:+ pattern) <$> command_patterns cmd_handler in
           <[class_name cmd_handler :=
               mk_info patterns_with_wake_word (description cmd_handler) (wake_word reg)]> commands)
        ∅ (_commands reg).

(** The registry states the operations can produce from a freshly
    constructed registry. *)
Inductive reachable (w : string) : CommandRegistry -> Prop :=
| reachable_init : reachable w (CommandRegistry_init w)
| reachable_register reg h st reg' st' :
    reachable w reg -> register reg h st = (Return reg', st') -> reachable w reg'
| reachable_unregister reg h st reg' st' :
    reachable w reg -> unregister reg h st = (Return reg', st') -> reachable w reg'.

(** The invariant the specification states for the stored wake word:
    non-empty, trimmed and case-folded. *)
Definition stated_wake_word_invariant (reg : CommandRegistry) : Prop :=
  wake_word reg <> "" /\ PyStr.trimmed (wake_word reg) /\
  PyStr.lower (wake_word reg) = wake_word reg.

End Registry.
Arguments CommandRegistry H : clear implicits.

(** ** [config/settings.py] *)

Section Config.

(** The text CPython puts in the [TypeError] of a call of the class
    named first with an unpacked dictionary of keyword arguments that
    do not bind to the parameters of its [__init__]. *)
Variable call_error_text : string -> gmap string py_value -> string.

(** [@dataclass class SmartDevice]; a dataclass stores what it is given,
    the annotations ([str] for every field) are not enforced. *)
Record SmartDevice := mk_device {
  name : py_value;
  device_id : py_value;
  ip_address : py_value;
  local_key : py_value;
  device_type : py_value;
}.

(** [SmartDevice.__post_init__] *)
Definition SmartDevice_post_init (self : SmartDevice) : outcome unit :=
  if negb (forallb truthy [name self; device_id self; ip_address self; local_key self])
  then Raise (mk_exc ConfigurationError "All device fields are required")
  else Return tt.

(** [SmartDevice(name, device_id, ip_address, local_key, device_type)] *)
Definition SmartDevice_new (name device_id ip_address local_key device_type : py_value)
  : outcome SmartDevice :=
  let self := mk_device name device_id ip_address local_key device_type in
  SmartDevice_post_init self;;
  Return self.

Definition SmartDevice_fields : gset string :=
  {[ "name"; "device_id"; "ip_address"; "local_key"; "device_type" ]}.

(** [SmartDevice] called with the unpacked dictionary [device] *)
Definition SmartDevice_kwargs (device : gmap string py_value) : outcome SmartDevice :=
  if decide (dom device ⊆ SmartDevice_fields) then
    match device !! "name", device !! "device_id",
          device !! "ip_address", device !! "local_key" with
    | Some n, Some i, Some a, Some k =>
        SmartDevice_new n i a k (default (VStr "outlet") (device !! "device_type"))
    | _, _, _, _ => Raise (mk_exc TypeError (call_error_text "SmartDevice" device))
    end
  else Raise (mk_exc TypeError (call_error_text "SmartDevice" device)).

(** [@dataclass class AssistantSettings]; [settings_wake_word] is the
    field [wake_word], whose name the registry's attribute has here. *)
Record AssistantSettings := mk_settings {
  speech_timeout : py_value;
  phrase_time_limit : py_value;
  language : py_value;
  log_level : py_value;
  screenshots_folder : py_value;
  settings_wake_word : py_value;
}.

(** [AssistantSettings()], every field at its default *)
Definition AssistantSettings_default : AssistantSettings :=
  mk_settings (VInt 5) (VInt 5) (VStr "id-ID") (VStr "INFO") (VStr "screenshots") (VStr "peter").

(** [v <= 0] *)
Definition le_zero (v : py_value) : outcome bool :=
  match v with
  | VInt z => Return (z <=? 0)%Z
  | VBool b => Return (negb b)
  | VNone | VStr _ =>
      Raise (mk_exc TypeError
               ("'<=' not supported between instances of '" +:+ type_name v +:+ "' and 'int'"))
  end.

Definition log_levels : list py_value :=
  [VStr "DEBUG"; VStr "INFO"; VStr "WARNING"; VStr "ERROR"; VStr "CRITICAL"].

(** [AssistantSettings.__post_init__] *)
Definition AssistantSettings_post_init (self : AssistantSettings) : outcome unit :=
  b1 ← le_zero (speech_timeout self);
  b ← (if b1 : bool then Return true else le_zero (phrase_time_limit self));
  if b : bool then Raise (mk_exc ConfigurationError "Timeout values must be positive")
  else if negb (bool_decide (log_level self ∈ log_levels))
  then Raise (mk_exc ConfigurationError "Invalid log level")
  else Return tt.

(** [AssistantSettings(speech_timeout, ..., wake_word)] *)
Definition AssistantSettings_new
    (speech_timeout phrase_time_limit language log_level screenshots_folder wake_word : py_value)
  : outcome AssistantSettings :=
  let self := mk_settings speech_timeout phrase_time_limit language log_level
                screenshots_folder wake_word in
  AssistantSettings_post_init self;;
  Return self.

Definition AssistantSettings_fields : gset string :=
  {[ "speech_timeout"; "phrase_time_limit"; "language"; "log_level";
     "screenshots_folder"; "wake_word" ]}.

(** [AssistantSettings] called with the unpacked [settings_data]: a
    missing key takes the field's default. *)
Definition AssistantSettings_kwargs (settings_data : gmap string py_value)
  : outcome AssistantSettings :=
  if decide (dom settings_data ⊆ AssistantSettings_fields) then
    let d := AssistantSettings_default in
    AssistantSettings_new
      (default (speech_timeout d) (settings_data !! "speech_timeout"))
      (default (phrase_time_limit d) (settings_data !! "phrase_time_limit"))
      (default (language d) (settings_data !! "language"))
      (default (log_level d) (settings_data !! "log_level"))
      (default (screenshots_folder d) (settings_data !! "screenshots_folder"))
      (default (settings_wake_word d) (settings_data !! "wake_word"))
  else Raise (mk_exc TypeError (call_error_text "AssistantSettings" settings_data)).

(** [@dataclass class Configuration] *)
Record Configuration := mk_config {
  smart_devices : list SmartDevice;
  settings : AssistantSettings;
  application_shortcuts : gmap string string;
}.

(** The structured external form: the dictionary [json.load] yields and
    [json.dump] takes, with its three top-level sections, each of which
    may be missing. *)
Record config_data := mk_data {
  data_smart_devices : option (list (gmap string py_value));
  data_settings : option (gmap string py_value);
  data_application_shortcuts : option (gmap string string);
}.

(** [Configuration.from_dict] *)
Definition from_dict (data : config_data) : outcome Configuration :=
  try_except_pure
    (let devices_data := default [] (data_smart_devices data) in
     smart_devices ← comprehension SmartDevice_kwargs devices_data;
     let settings_data := default ∅ (data_settings data) in
     settings ← AssistantSettings_kwargs settings_data;
     let app_shortcuts := default ∅ (data_application_shortcuts data) in
     Return (mk_config smart_devices settings app_shortcuts))
    TypeError
    (fun e => Raise (mk_exc ConfigurationError
                       ("Invalid configuration format: " +:+ exc_str e))).

(** The dictionary [to_dict] builds for one device. *)
Definition device_to_dict (device : SmartDevice) : gmap string py_value :=
  <["name" := name device]>
  (<["device_id" := device_id device]>
  (<["ip_address" := ip_address device]>
  (<["local_key" := local_key device]>
  (<["device_type" := device_type device]> ∅)))).

(** The dictionary [to_dict] builds for the settings. *)
Definition settings_to_dict (s : AssistantSettings) : gmap string py_value :=
  <["speech_timeout" := speech_timeout s]>
  (<["phrase_time_limit" := phrase_time_limit s]>
  (<["language" := language s]>
  (<["log_level" := log_level s]>
  (<["screenshots_folder" := screenshots_folder s]> ∅)))).

(** [Configuration.to_dict] *)
Definition to_dict (self : Configuration) : config_data :=
  {| data_smart_devices := Some (device_to_dict <$> smart_devices self);
     data_settings := Some (settings_to_dict (settings self));
     data_application_shortcuts := Some (application_shortcuts self) |}.

(** The settings [from_dict] builds from the dictionary [to_dict] made
    of [s]: the five fields written, and the default wake word. *)
Definition reloaded_settings (s : AssistantSettings) : AssistantSettings :=
  mk_settings (speech_timeout s) (phrase_time_limit s) (language s)
    (log_level s) (screenshots_folder s)
    (settings_wake_word AssistantSettings_default).

(** [Configuration.validate] *)
Definition validate (self : Configuration) : outcome unit :=
  for_each SmartDevice_post_init (smart_devices self);;
  AssistantSettings_post_init (settings self).

(** [ConfigManager.get_application_command], on the aggregate the
    manager holds ([self.config]). *)
Definition get_application_command (config : Configuration) (app_name : string)
  : option string :=
  application_shortcuts config !! PyStr.lower app_name.

(** A record whose fields have the types the annotations give. *)
Definition SmartDevice_well_typed (d : SmartDevice) : Prop :=
  exists n i a k t, d = mk_device (VStr n) (VStr i) (VStr a) (VStr k) (VStr t).

Definition AssistantSettings_well_typed (s : AssistantSettings) : Prop :=
  exists st pt l ll sf w,
    s = mk_settings (VInt st) (VInt pt) (VStr l) (VStr ll) (VStr sf) (VStr w).

(** A valid record: well typed, and accepted by [__post_init__]. *)
Definition valid_device (d : SmartDevice) : Prop :=
  SmartDevice_well_typed d /\ SmartDevice_post_init d = Return tt.

Definition valid_settings (s : AssistantSettings) : Prop :=
  AssistantSettings_well_typed s /\ AssistantSettings_post_init s = Return tt.

End Config.

(** ** [core/assistant.py]: the orchestrator *)

Section Assistant.
Context {H World : Type} `{EqDecision H} `{Command H World}.

(** The registry the assistant is given (dependency injection): the one
    method the assistant calls on it. *)
Record registry_port := mk_port {
  port_execute_command : string -> context_t -> M H World py_value;
}.

(** A [CommandRegistry] as the injected dependency. *)
Definition port_of_registry (reg : CommandRegistry H) : registry_port :=
  {| port_execute_command := execute_command reg |}.

Record VoiceAssistant := mk_assistant {
  command_registry : registry_port;
  running : bool;
}.

Definition assistant_logger : string := "voice_assistant.main".

(** [VoiceAssistant._process_command_safely] *)
Definition _process_command_safely (self : VoiceAssistant) (command : string)
  : M H World unit :=
  try_except
    (log assistant_logger INFO ("Processing command: " +:+ command);;
     result ← port_execute_command (command_registry self) command None;
     if truthy result then
       log assistant_logger INFO ("Command executed successfully: " +:+ py_str result)
     else
       log assistant_logger INFO "Command executed successfully")
    (fun e =>
       if issubclass (exc_type e) CommandExecutionError then
         Some (log assistant_logger ERROR ("Command execution error: " +:+ exc_str e))
       else if issubclass (exc_type e) Exception then
         Some (log assistant_logger ERROR
                 ("Unexpected error processing command '" +:+ command +:+ "': " +:+ exc_str e))
       else None).

(** [VoiceAssistant.process_command] *)
Definition process_command (self : VoiceAssistant) (command : string) (context : context_t)
  : M H World py_value :=
  try_except
    (log assistant_logger INFO ("Processing single command: " +:+ command);;
     port_execute_command (command_registry self) command context)
    (fun e =>
       if issubclass (exc_type e) Exception then
         Some (log assistant_logger ERROR
                 ("Error processing command '" +:+ command +:+ "': " +:+ exc_str e);;
               raise e)
       else None).

End Assistant.

(** ** Handlers for the scenarios

    The concrete handlers of the repository decide [can_handle] by
    [any(pattern in command.lower() for pattern in patterns)]
    ([BrowserCommand], [SystemControlCommand], [UtilityCommand]); their
    [execute] drives a collaborator outside the core.  A scripted
    handler keeps that [can_handle] and replaces the collaborator by a
    fixed outcome; the world is the list of commands executed so far. *)
Record scripted_handler := mk_scripted {
  scripted_name : string;
  scripted_patterns : list string;
  scripted_outcome : outcome py_value;
}.

#[global] Instance py_exception_eq_dec : EqDecision py_exception.
Proof. solve_decision. Defined.
#[global] Instance py_interrupt_eq_dec : EqDecision py_interrupt.
Proof. solve_decision. Defined.
#[global] Instance outcome_eq_dec {A} `{EqDecision A} : EqDecision (outcome A).
Proof. solve_decision. Defined.
#[global] Instance scripted_handler_eq_dec : EqDecision scripted_handler.
Proof. solve_decision. Defined.

#[global] Instance scripted_command : Command scripted_handler (list string) := {|
  can_handle h command :=
    existsb (fun pattern => PyStr.contains (PyStr.lower command) pattern) (scripted_patterns h);
  execute h command context w := (scripted_outcome h, w ++ [command]);
  command_patterns := scripted_patterns;
  description h := "Scripted handler";
  class_name := scripted_name;
|}.

(** The two handlers of scenario C, a handler whose [execute] fails, and
    the browser handler's YouTube pattern. *)
Definition H1 : scripted_handler :=
  mk_scripted "H1" ["lampu"] (Return (VStr "H1 done")).
Definition H2 : scripted_handler :=
  mk_scripted "H2" ["lampu nyala"] (Return (VStr "H2 done")).
Definition failing_handler : scripted_handler :=
  mk_scripted "FailingCommand" ["buka youtube"]
    (Raise (mk_exc ApplicationLaunchError "Application not found: youtube")).
Definition browser_handler : scripted_handler :=
  mk_scripted "BrowserCommand" ["buka youtube"; "cari di google"; "buka website"]
    (Return (VStr "YouTube opened")).

(** The initial state of the scenarios: nothing executed, nothing logged. *)
Definition st0 : state scripted_handler (list string) := mk_state [] [].

(** The registries of the scenarios, wake word "peter". *)
Definition lamp_registry : CommandRegistry scripted_handler :=
  mk_registry [H1; H2] "peter".
Definition browser_registry : CommandRegistry scripted_handler :=
  mk_registry [browser_handler] "peter".
Definition failing_registry : CommandRegistry scripted_handler :=
  mk_registry [failing_handler] "peter".

(** A valid configuration whose wake word is not the default one. *)
Definition jarvis_config : Configuration :=
  mk_config
    [mk_device (VStr "Smart Lamp") (VStr "another_device_id_here") (VStr "192.168.1.101")
       (VStr "another_local_key_here") (VStr "light")]
    (mk_settings (VInt 5) (VInt 5) (VStr "id-ID") (VStr "INFO") (VStr "screenshots")
       (VStr "jarvis"))
    {[ "notepad" := "notepad.exe" ]}.

(** ** Reading a registry and a trace *)

Section RegistryViews.
Context {H World : Type} `{EqDecision H} `{Command H World}.

(** The [execute] calls a trace records, oldest first. *)
Definition executed_calls (tr : list (event H)) : list (H * string * context_t) :=
  omap (fun ev =>
          match ev with
          | Executed h command context => Some (h, command, context)
          | Logged _ _ _ => None
          end) tr.

(** The entry [list_commands] writes for one handler. *)
Definition command_entry (reg : CommandRegistry H) (cmd_handler : H) : command_info :=
  mk_info ((fun pattern => wake_word reg +:+ " " +:+ pattern) <$> command_patterns cmd_handler)
    (description cmd_handler) (wake_word reg).

End RegistryViews.

(** ** [config/settings.py]: device lookup *)

(** [v.lower()] on a value that may not be a string. *)
Definition str_lower (v : py_value) : outcome string :=
  match v with
  | VStr s => Return (PyStr.lower s)
  | _ =>
      Raise (mk_exc (OtherBuiltinError "AttributeError")
               ("'" +:+ type_name v +:+ "' object has no attribute 'lower'"))
  end.

(** The loop of [ConfigManager.get_device_by_name]. *)
Fixpoint first_device_named (devices : list SmartDevice) (wanted : string)
  : outcome (option SmartDevice) :=
  match devices with
  | [] => Return None
  | device :: rest =>
      device_name ← str_lower (name device);
      if String.eqb device_name (PyStr.lower wanted) then Return (Some device)
      else first_device_named rest wanted
  end.

(** [ConfigManager.get_device_by_name], on the aggregate the manager
    holds; [wanted] is the parameter [name]. *)
Definition get_device_by_name (config : Configuration) (wanted : string)
  : outcome (option SmartDevice) :=
  first_device_named (smart_devices config) wanted.

(** ** [commands/application_commands.py] *)

(** [ApplicationCommand.default_apps] *)
Definition default_apps : gmap string string :=
  list_to_map
    [("notepad", "notepad.exe"); ("calculator", "calc.exe"); ("paint", "mspaint.exe");
     ("task manager", "taskmgr.exe"); ("control panel", "control.exe");
     ("command prompt", "cmd.exe"); ("powershell", "powershell.exe");
     ("registry editor", "regedit.exe"); ("system information", "msinfo32.exe");
     ("device manager", "devmgmt.msc"); ("disk management", "diskmgmt.msc");
     ("event viewer", "eventvwr.msc"); ("services", "services.msc")].

(** The table [name_mappings] of [_get_executable_name]. *)
Definition name_mappings : gmap string string :=
  list_to_map
    [("vs code", "code"); ("visual studio code", "code"); ("vscode", "code");
     ("chrome", "chrome.exe"); ("google chrome", "chrome.exe");
     ("firefox", "firefox.exe"); ("mozilla firefox", "firefox.exe");
     ("edge", "msedge.exe"); ("microsoft edge", "msedge.exe");
     ("word", "winword.exe"); ("microsoft word", "winword.exe");
     ("excel", "excel.exe"); ("microsoft excel", "excel.exe");
     ("powerpoint", "powerpnt.exe"); ("microsoft powerpoint", "powerpnt.exe");
     ("outlook", "outlook.exe"); ("microsoft outlook", "outlook.exe");
     ("teams", "teams.exe"); ("microsoft teams", "teams.exe");
     ("skype", "skype.exe"); ("discord", "discord.exe"); ("spotify", "spotify.exe");
     ("steam", "steam.exe"); ("vlc", "vlc.exe"); ("media player", "vlc.exe");
     ("photoshop", "photoshop.exe"); ("adobe photoshop", "photoshop.exe");
     ("illustrator", "illustrator.exe"); ("adobe illustrator", "illustrator.exe")].

(** [s.replace(' ', by)] *)
Fixpoint replace_space (by_ : string) (s : string) : string :=
  match s with
  | EmptyString => EmptyString
  | String c s' =>
      if Ascii.eqb c " " then by_ +:+ replace_space by_ s'
      else String c (replace_space by_ s')
  end.

(** [bool(x)] for an [Optional[str]] *)
Definition opt_str_truthy (x : option string) : bool :=
  match x with
  | Some s => negb (String.eqb s "")
  | None => false
  end.

(** [ApplicationCommand._get_executable_name], with the aggregate of
    the handler's configuration manager. *)
Definition _get_executable_name (config : Configuration) (app_name : string) : string :=
  let app_name_lower := PyStr.lower app_name in
  let config_executable := get_application_command config app_name_lower in
  if opt_str_truthy config_executable then default "" config_executable
  else
    match default_apps !! app_name_lower with
    | Some executable => executable
    | None =>
        match name_mappings !! app_name_lower with
        | Some executable => executable
        | None =>
            let common_patterns :=
              [app_name_lower +:+ ".exe";
               replace_space "" app_name_lower +:+ ".exe";
               replace_space "_" app_name_lower +:+ ".exe";
               replace_space "-" app_name_lower +:+ ".exe"] in
            default "" (common_patterns !! 0)
        end
    end.

(** [ApplicationCommand.list_application_shortcuts]: the copy of the
    shortcuts, updated with the default applications. *)
Definition list_application_shortcuts (config : Configuration) : gmap string string :=
  default_apps ∪ application_shortcuts config.

Section ApplicationShortcuts.
Context {H : Type}.

(** What [ConfigManager.save_config] does when asked to write an
    aggregate to its file: returns, or raises; the file is outside the
    model. *)
Variable save_config : Configuration -> outcome unit.

(** The logger the handler was given. *)
Variable logger : string.

(** [self.config_manager.save_config()], the aggregate being the world *)
Definition call_save_config : M H Configuration unit :=
  fun st => (save_config (world st), st).

(** An assignment to the aggregate the manager holds. *)
Definition set_shortcuts (shortcuts : gmap string string) : M H Configuration unit :=
  fun st =>
    (Return tt,
     mk_state (mk_config (smart_devices (world st)) (settings (world st)) shortcuts)
       (trace st)).

(** [ApplicationCommand.add_application_shortcut] *)
Definition add_application_shortcut (app_name executable : string) : M H Configuration unit :=
  try_except
    (fun st =>
       (set_shortcuts (<[PyStr.lower app_name := executable]>
                         (application_shortcuts (world st)));;
        call_save_config;;
        log logger INFO
          ("Added application shortcut: " +:+ app_name +:+ " -> " +:+ executable)) st)
    (fun e =>
       if issubclass (exc_type e) Exception then
         Some (log logger ERROR ("Failed to add application shortcut: " +:+ exc_str e);;
               raise (mk_exc ApplicationLaunchError
                        ("Failed to add application shortcut: " +:+ exc_str e)))
       else None).

(** [ApplicationCommand.remove_application_shortcut] *)
Definition remove_application_shortcut (app_name : string) : M H Configuration unit :=
  try_except
    (fun st =>
       let shortcuts := application_shortcuts (world st) in
       (if bool_decide (is_Some (shortcuts !! PyStr.lower app_name)) then
          set_shortcuts (delete (PyStr.lower app_name) shortcuts);;
          call_save_config;;
          log logger INFO ("Removed application shortcut: " +:+ app_name)
        else
          raise (mk_exc ApplicationLaunchError
                   ("Application shortcut not found: " +:+ app_name))) st)
    (fun e =>
       if issubclass (exc_type e) Exception then
         Some (log logger ERROR ("Failed to remove application shortcut: " +:+ exc_str e);;
               raise (mk_exc ApplicationLaunchError
                        ("Failed to remove application shortcut: " +:+ exc_str e)))
       else None).

End ApplicationShortcuts.

(** ** The handlers of the repository and [core/factory.py] *)

(** The five handler objects the factory creates. *)
Inductive builtin_handler :=
| SystemControlCommand
| BrowserCommand
| ApplicationCommand
| SmartDeviceCommand
| UtilityCommand.

#[global] Instance builtin_handler_eq_dec : EqDecision builtin_handler.
Proof. solve_decision. Defined.

(** [any(pattern in command.lower() for pattern in patterns)] *)
Definition any_pattern_in (patterns : list string) (command : string) : bool :=
  existsb (fun pattern => PyStr.contains (PyStr.lower command) pattern) patterns.

(** What lies outside the dispatch core: whether [import tinytuya]
    succeeded, the loggers of the handlers, the three actions of the
    system handler, and the whole [execute] of the other four. *)
Class Collaborators (World : Type) := {
  tinytuya : bool;
  handler_log : builtin_handler -> logging_level -> string -> World -> World;
  _shutdown_computer : World -> outcome py_value * World;
  _close_all_applications : World -> outcome py_value * World;
  _schedule_shutdown : string -> World -> outcome py_value * World;
  browser_execute : string -> context_t -> World -> outcome py_value * World;
  application_execute : string -> context_t -> World -> outcome py_value * World;
  smart_device_execute : string -> context_t -> World -> outcome py_value * World;
  utility_execute : string -> context_t -> World -> outcome py_value * World;
}.

Section Builtin.
Context {World : Type} `{Collaborators World}.

(** [SystemControlCommand.execute] *)
Definition system_control_execute (command : string) (context : context_t) (w : World)
  : outcome py_value * World :=
  let command_lower := PyStr.lower command in
  let (r, w1) :=
    if PyStr.contains command_lower "matikan komputer"
       && negb (PyStr.contains command_lower "timer")
    then _shutdown_computer w
    else if PyStr.contains command_lower "tutup semua aplikasi"
    then _close_all_applications w
    else if PyStr.contains command_lower "timer" && PyStr.contains command_lower "menit"
            && PyStr.contains command_lower "matikan komputer"
    then _schedule_shutdown command_lower w
    else (Raise (mk_exc SystemCommandError ("Unknown system command: " +:+ command)), w) in
  match r with
  | Raise e =>
      (Raise (mk_exc SystemCommandError
                ("Failed to execute system command: " +:+ exc_str e)),
       handler_log SystemControlCommand ERROR
         ("Error executing system command '" +:+ command +:+ "': " +:+ exc_str e) w1)
  | _ => (r, w1)
  end.

(** The five classes as one implementation of [Command]. *)
#[global] Instance builtin_command : Command builtin_handler World := {|
  can_handle h command :=
    match h with
    | SystemControlCommand =>
        any_pattern_in ["matikan komputer"; "tutup semua aplikasi"; "timer"; "menit"] command
    | BrowserCommand =>
        any_pattern_in ["buka youtube"; "cari di google"; "buka website"] command
    | ApplicationCommand => PyStr.contains (PyStr.lower command) "jalankan aplikasi"
    | SmartDeviceCommand =>
        if negb tinytuya then false
        else any_pattern_in
               ["nyalakan lampu"; "hidupkan lampu"; "matikan lampu"; "tutup lampu"] command
    | UtilityCommand =>
        any_pattern_in ["ambil screenshot"; "screenshot"; "tangkap layar"] command
    end;
  execute h :=
    match h with
    | SystemControlCommand => system_control_execute
    | BrowserCommand => browser_execute
    | ApplicationCommand => application_execute
    | SmartDeviceCommand => smart_device_execute
    | UtilityCommand => utility_execute
    end;
  command_patterns h :=
    match h with
    | SystemControlCommand =>
        ["matikan komputer"; "tutup semua aplikasi"; "timer * menit matikan komputer"]
    | BrowserCommand => ["buka youtube"; "cari di google *"; "buka website *"]
    | ApplicationCommand => ["jalankan aplikasi *"]
    | SmartDeviceCommand =>
        ["nyalakan lampu"; "hidupkan lampu"; "matikan lampu"; "tutup lampu"]
    | UtilityCommand => ["ambil screenshot"; "screenshot"; "tangkap layar"]
    end;
  description h :=
    match h with
    | SystemControlCommand =>
        "Handle system control commands: shutdown, close apps, timer shutdown"
    | BrowserCommand =>
        "Handle browser commands: open YouTube, Google search, open websites"
    | ApplicationCommand => "Launch desktop applications by name"
    | SmartDeviceCommand => "Control smart devices: turn lights on/off using TinyTuya"
    | UtilityCommand => "Utility commands: take screenshots"
    end;
  class_name h :=
    match h with
    | SystemControlCommand => "SystemControlCommand"
    | BrowserCommand => "BrowserCommand"
    | ApplicationCommand => "ApplicationCommand"
    | SmartDeviceCommand => "SmartDeviceCommand"
    | UtilityCommand => "UtilityCommand"
    end;
|}.

Definition factory_logger : string := "voice_assistant.factory".

(** [AssistantFactory._create_command_registry], on the aggregate the
    configuration manager holds.  Of the five constructors only
    [SmartDeviceCommand] does something: it logs a warning when
    [tinytuya] is missing. *)
Definition _create_command_registry (config : Configuration)
  : M builtin_handler World (CommandRegistry builtin_handler) :=
  wake_word ← (fun st => (str_lower (settings_wake_word (settings config)), st));
  let registry := mk_registry [] wake_word in
  try_except
    ((if negb tinytuya
      then log factory_logger WARNING
             "TinyTuya not installed. Smart device features disabled."
      else mret tt);;
     registry ← register registry SystemControlCommand;
     registry ← register registry BrowserCommand;
     registry ← register registry ApplicationCommand;
     registry ← register registry SmartDeviceCommand;
     registry ← register registry UtilityCommand;
     log factory_logger INFO "Command registry created with all handlers registered";;
     mret registry)
    (fun e =>
       if issubclass (exc_type e) Exception then
         Some (log factory_logger ERROR
                 ("Failed to create command registry: " +:+ exc_str e);;
               raise e)
       else None).

End Builtin.

(** Collaborators for the scenarios: [tinytuya] as given, every action
    returns a fixed text and records the command in the world. *)
Definition scripted_collaborators (has_tinytuya : bool) : Collaborators (list string) := {|
  tinytuya := has_tinytuya;
  handler_log h level msg w := w ++ [msg];
  _shutdown_computer w := (Return (VStr "Computer shutdown initiated"), w ++ ["shutdown"]);
  _close_all_applications w := (Return (VStr "Closed 0 applications"), w ++ ["close"]);
  _schedule_shutdown command w :=
    (Return (VStr "Computer will shutdown in 5 minutes"), w ++ ["schedule"]);
  browser_execute command context w := (Return (VStr "YouTube opened"), w ++ [command]);
  application_execute command context w :=
    (Return (VStr "Launched application"), w ++ [command]);
  smart_device_execute command context w := (Return (VStr "Turned ON"), w ++ [command]);
  utility_execute command context w := (Return (VStr "Screenshot saved"), w ++ [command]);
|}.

(** ** [commands/smart_device_commands.py]: the device a command acts on *)

(** The loop of [SmartDeviceCommand._get_device]. *)
Fixpoint device_with_name (devices : list SmartDevice) (device_name : string)
  : outcome (option SmartDevice) :=
  match devices with
  | [] => Return None
  | device :: rest =>
      this_name ← str_lower (name device);
      if String.eqb this_name (PyStr.lower device_name) then Return (Some device)
      else device_with_name rest device_name
  end.

(** [SmartDeviceCommand._get_device], on the aggregate of the handler's
    configuration manager. *)
Definition _get_device (config : Configuration) (device_name : option string)
  : outcome (option SmartDevice) :=
  let devices := smart_devices config in
  match devices with
  | [] => Return None
  | first :: _ =>
      if opt_str_truthy device_name
      then device_with_name devices (default "" device_name)
      else Return (Some first)
  end.

(** The five handlers over the scripted collaborators, the registry the
    factory creates for [jarvis_config], and the matching initial
    state. *)
Definition scenario_builtin (has_tinytuya : bool) : Command builtin_handler (list string) :=
  @builtin_command _ (scripted_collaborators has_tinytuya).

Definition jarvis_registry : CommandRegistry builtin_handler :=
  mk_registry [SystemControlCommand; BrowserCommand; ApplicationCommand;
               SmartDeviceCommand; UtilityCommand] "jarvis".

Definition builtin_st0 : state builtin_handler (list string) := mk_state [] [].

(** A configuration whose only shortcut overrides a default application,
    one whose only key is capitalised, and one whose first device has a
    number for a name. *)
Definition override_config : Configuration :=
  mk_config [] AssistantSettings_default {[ "notepad" := "notepad++.exe" ]}.

Definition capital_key_config : Configuration :=
  mk_config [] AssistantSettings_default {[ "Notepad" := "notepad.exe" ]}.

Definition numbered_device_config : Configuration :=
  mk_config
    [mk_device (VInt 5) (VStr "id5") (VStr "192.168.1.105") (VStr "key5") (VStr "outlet")]
    AssistantSettings_default ∅.

(** A save that always succeeds. *)
Definition save_ok (c : Configuration) : outcome unit := Return tt.

(** A save that always fails. *)
Definition save_fails (c : Configuration) : outcome unit :=
  Raise (mk_exc ConfigurationError "Error saving config file: disk full").



(** * Properties *)

(** ** Strings *)

Section StringFacts.
Import PyStr.

Lemma app_nil_l (s : string) : "" +:+ s = s.
Proof. reflexivity. Qed.

Lemma app_cons (c : ascii) (s t : string) : String c s +:+ t = String c (s +:+ t).
Proof. reflexivity. Qed.

Lemma app_nil_r (s : string) : s +:+ "" = s.
Proof. induction s as [|c s IH]; [done|]. by rewrite app_cons, IH. Qed.

Lemma app_assoc (s t u : string) : (s +:+ t) +:+ u = s +:+ t +:+ u.
Proof. induction s as [|c s IH]; [done|]. by rewrite !app_cons, IH. Qed.

Lemma len_app (s t : string) : len (s +:+ t) = len s + len t.
Proof. induction s as [|c s IH]; [done|]. rewrite app_cons. simpl. by rewrite IH. Qed.

Lemma app_inv_len (a b c d : string) :
  len a = len c -> a +:+ b = c +:+ d -> a = c /\ b = d.
Proof.
  revert c. induction a as [|x a IH]; intros [|y c] Hl Heq; simpl in Hl; try discriminate.
  - done.
  - rewrite !app_cons in Heq. injection Heq as -> Heq.
    destruct (IH c) as [-> ->]; [lia|done|done].
Qed.

Lemma lower_char_idemp (c : ascii) : lower_char (lower_char c) = lower_char c.
Proof. destruct c as [[] [] [] [] [] [] [] []]; reflexivity. Qed.

Lemma is_space_lower_char (c : ascii) : is_space (lower_char c) = is_space c.
Proof. destruct c as [[] [] [] [] [] [] [] []]; reflexivity. Qed.

Lemma lower_app (s t : string) : lower (s +:+ t) = lower s +:+ lower t.
Proof. induction s as [|c s IH]; [done|]. rewrite !app_cons. simpl. by rewrite IH. Qed.

Lemma lower_idemp (s : string) : lower (lower s) = lower s.
Proof. induction s as [|c s IH]; [done|]. simpl. by rewrite lower_char_idemp, IH. Qed.

Lemma len_lower (s : string) : len (lower s) = len s.
Proof. induction s as [|c s IH]; [done|]. simpl. by rewrite IH. Qed.

Lemma lower_lstrip (s : string) : lower (lstrip s) = lstrip (lower s).
Proof.
  induction s as [|c s IH]; [done|]. simpl. rewrite is_space_lower_char.
  by destruct (is_space c).
Qed.

Lemma lower_rstrip (s : string) : lower (rstrip s) = rstrip (lower s).
Proof.
  induction s as [|c s IH]; [done|]. simpl. rewrite <- IH, is_space_lower_char.
  destruct (rstrip s); simpl; [by destruct (is_space c)|done].
Qed.

Lemma lower_strip (s : string) : lower (strip s) = strip (lower s).
Proof. unfold strip. by rewrite lower_rstrip, lower_lstrip. Qed.

Lemma same_letter_lower (a b : ascii) : same_letter a b -> lower_char a = lower_char b.
Proof.
  intros [->|[<-| ->]]; [done| |]; by rewrite lower_char_idemp.
Qed.

Lemma differ_only_in_case_lower (s t : string) :
  differ_only_in_case s t -> lower s = lower t.
Proof.
  induction 1 as [|a b s t Hab _ IH]; [done|]. simpl.
  by rewrite (same_letter_lower _ _ Hab), IH.
Qed.

Lemma startswith_app (p r : string) : startswith (p +:+ r) p = true.
Proof.
  induction p as [|c p IH]; [by destruct r|]. rewrite app_cons. simpl.
  by destruct (ascii_dec c c).
Qed.

Lemma startswith_inv (s p : string) :
  startswith s p = true -> s = p +:+ slice_from (len p) s.
Proof.
  revert s. induction p as [|c p IH]; intros s Hs; [done|].
  destruct s as [|d s]; [done|]. simpl in Hs.
  destruct (ascii_dec c d) as [->|]; [|done].
  rewrite app_cons. simpl. by rewrite <- IH.
Qed.

Lemma startswith_iff (s p : string) :
  startswith s p = true <-> exists r, s = p +:+ r.
Proof.
  split.
  - intros Hs. eexists. by apply startswith_inv.
  - intros [r ->]. apply startswith_app.
Qed.

Lemma slice_from_app (p r : string) : slice_from (len p) (p +:+ r) = r.
Proof. induction p as [|c p IH]; [by destruct r|]. by rewrite app_cons. Qed.

Lemma startswith_refl (s : string) : startswith s s = true.
Proof. rewrite <- (app_nil_r s) at 1. apply startswith_app. Qed.

Lemma contains_unfold (s p : string) :
  contains s p =
  startswith s p || match s with EmptyString => false | String _ s' => contains s' p end.
Proof. by destruct s. Qed.

Lemma contains_refl (s : string) : contains s s = true.
Proof. by rewrite contains_unfold, startswith_refl. Qed.

Lemma contains_app_r (p s : string) : contains (p +:+ s) s = true.
Proof.
  induction p as [|c p IH].
  - rewrite app_nil_l. apply contains_refl.
  - rewrite app_cons, contains_unfold, IH. apply orb_true_r.
Qed.

Lemma len_lstrip (s : string) : len (lstrip s) <= len s.
Proof. induction s as [|c s IH]; simpl; [lia|]. destruct (is_space c); simpl; lia. Qed.

Lemma lstrip_fix (s : string) : len (lstrip s) = len s -> lstrip s = s.
Proof.
  destruct s as [|c s]; [done|]. simpl. destruct (is_space c); [|done].
  pose proof (len_lstrip s). lia.
Qed.

Lemma len_rstrip (s : string) : len (rstrip s) <= len s.
Proof.
  induction s as [|c s IH]; simpl; [lia|].
  destruct (rstrip s); [destruct (is_space c)|]; simpl in *; lia.
Qed.

Lemma trimmed_inv (s : string) : trimmed s -> lstrip s = s /\ rstrip s = s.
Proof.
  unfold trimmed, strip. intros Hs.
  assert (lstrip s = s) as Hl.
  { apply lstrip_fix. pose proof (len_lstrip s). pose proof (len_rstrip (lstrip s)).
    rewrite Hs in *. lia. }
  split; [done|]. by rewrite Hl in Hs.
Qed.

Lemma rstrip_cons_cases (c : ascii) (s : string) :
  rstrip (String c s) = "" \/ exists r, rstrip (String c s) = String c r.
Proof. simpl. destruct (rstrip s); [destruct (is_space c)|]; eauto. Qed.

Lemma rstrip_idemp (s : string) : rstrip (rstrip s) = rstrip s.
Proof.
  induction s as [|c s IH]; [done|]. simpl.
  destruct (rstrip s) as [|d r] eqn:E.
  - destruct (is_space c) eqn:Ec; simpl; [done|by rewrite Ec].
  - change (rstrip (String c (String d r))) with
      (match rstrip (String d r) with
       | "" => if is_space c then "" else String c ""
       | r' => String c r'
       end).
    by rewrite IH.
Qed.

Lemma lstrip_head (s : string) :
  lstrip s = "" \/ exists c s', lstrip s = String c s' /\ is_space c = false.
Proof.
  induction s as [|c s IH]; [by left|]. simpl.
  destruct (is_space c) eqn:Ec; [done|]. right. eauto.
Qed.

Lemma strip_idemp (s : string) : trimmed (strip s).
Proof.
  unfold trimmed, strip.
  destruct (lstrip_head s) as [E|(c & s' & E & Hc)]; rewrite E; [done|].
  destruct (rstrip_cons_cases c s') as [E2|[r E2]]; rewrite E2; [done|].
  simpl lstrip. rewrite Hc. by rewrite <- E2, rstrip_idemp.
Qed.

Lemma rstrip_tail (c : ascii) (s : string) :
  rstrip (String c s) = String c s -> rstrip s = s.
Proof.
  simpl. destruct (rstrip s) as [|d r].
  - destruct (is_space c); [done|]. by intros [= <-].
  - by intros [= <-].
Qed.

Lemma rstrip_app_fix (a b : string) : rstrip (a +:+ b) = a +:+ b -> rstrip b = b.
Proof.
  induction a as [|c a IH]; [done|]. rewrite app_cons. intros Hr.
  apply IH. by apply rstrip_tail in Hr.
Qed.

Lemma rstrip_app_keep (x b : string) :
  b <> "" -> rstrip b = b -> rstrip (x +:+ b) = x +:+ b.
Proof.
  intros Hb Hr. induction x as [|c x IH]; [done|]. rewrite app_cons. simpl.
  rewrite IH. destruct (x +:+ b) eqn:E; [|done].
  destruct x; [|done]. by rewrite app_nil_l in E.
Qed.

Lemma rstrip_app_space (a : string) : rstrip a = a -> rstrip (a +:+ " ") = a.
Proof.
  induction a as [|c a IH]; [done|]. intros Hr. rewrite app_cons. simpl.
  rewrite IH by (by apply rstrip_tail in Hr).
  destruct a; [|done]. simpl in Hr. by destruct (is_space c).
Qed.

Lemma lstrip_space (b : string) : lstrip (" " +:+ b) = lstrip b.
Proof. reflexivity. Qed.

(** A space put inside a trimmed string, between a prefix and the rest,
    is stripped away with the rest. *)
Lemma strip_space_between (a b : string) :
  trimmed (a +:+ b) ->
  exists r, strip (a +:+ " " +:+ b) = a +:+ r /\ strip r = strip b.
Proof.
  intros Ht. destruct (trimmed_inv _ Ht) as [Hl Hr].
  destruct a as [|c a].
  - exists b. rewrite !app_nil_l in *. split; [|done].
    unfold strip. rewrite lstrip_space. exact Ht.
  - assert (is_space c = false) as Hc.
    { rewrite app_cons in Hl. simpl in Hl. destruct (is_space c); [|done].
      pose proof (len_lstrip (a +:+ b)) as Hlen. rewrite Hl in Hlen. simpl in Hlen. lia. }
    assert (lstrip (String c a +:+ " " +:+ b) = String c a +:+ " " +:+ b) as Hl'.
    { rewrite app_cons. simpl. by rewrite Hc. }
    destruct b as [|d b].
    + exists "". rewrite !app_nil_r in *. split; [|done].
      unfold strip. rewrite Hl'. by apply rstrip_app_space.
    + exists (" " +:+ String d b). split.
      * unfold strip. rewrite Hl'. rewrite <- app_assoc.
        apply rstrip_app_keep; [done|]. by apply rstrip_app_fix in Hr.
      * unfold strip. by rewrite lstrip_space.
Qed.

Lemma trimmed_lower (s : string) : trimmed s -> trimmed (lower s).
Proof. unfold trimmed. intros Hs. by rewrite <- lower_strip, Hs. Qed.

Lemma rstrip_fix (s : string) : len (rstrip s) = len s -> rstrip s = s.
Proof.
  induction s as [|c s IH]; [done|]. simpl.
  destruct (rstrip s) as [|d r] eqn:E.
  - destruct (is_space c); simpl; [done|]. intros Hl. by destruct s.
  - simpl. intros Hl. rewrite IH; [done|]. simpl. lia.
Qed.

Lemma len_strip (s : string) : len (strip s) <= len s.
Proof.
  unfold strip. pose proof (len_lstrip s). pose proof (len_rstrip (lstrip s)). lia.
Qed.

Lemma trimmed_len (s : string) : trimmed s <-> len (strip s) = len s.
Proof.
  split; [by intros ->|]. unfold trimmed, strip. intros Hl.
  pose proof (len_lstrip s). pose proof (len_rstrip (lstrip s)).
  assert (lstrip s = s) as Hs by (apply lstrip_fix; lia).
  rewrite Hs in *. by apply rstrip_fix.
Qed.

Lemma trimmed_lower_iff (s : string) : trimmed (lower s) <-> trimmed s.
Proof. by rewrite !trimmed_len, <- lower_strip, !len_lower. Qed.

Lemma lower_empty_iff (s : string) : lower s = "" <-> s = "".
Proof. by destruct s. Qed.

End StringFacts.

(** ** The registry *)

Section RegistryFacts.
Context {H World : Type} `{EqDecision H} `{Command H World}.
Import PyStr.
Implicit Types (reg : CommandRegistry H) (h : H) (st : state H World).

Lemma first_accepting_none (l : list H) (c : string) :
  first_accepting l c = None <-> forall h, h ∈ l -> can_handle h c = false.
Proof.
  induction l as [|x l IH]; simpl.
  - split; [|done]. intros _ h Hh. by apply elem_of_nil in Hh.
  - destruct (can_handle x c) eqn:Ex.
    + split; [done|]. intros Hall. specialize (Hall x). rewrite Ex in Hall.
      discriminate Hall. apply elem_of_cons; by left.
    + rewrite IH. split.
      * intros Hall h [->|Hh]%elem_of_cons; auto.
      * intros Hall h Hh. apply Hall, elem_of_cons. by right.
Qed.

Lemma first_accepting_app (pre post : list H) (h : H) (c : string) :
  Forall (fun x => can_handle x c = false) pre -> can_handle h c = true ->
  first_accepting (pre ++ h :: post) c = Some h.
Proof.
  intros Hpre Hh. induction Hpre as [|x pre Hx _ IH]; simpl.
  - by rewrite Hh.
  - by rewrite Hx.
Qed.

Lemma first_accepting_some (l : list H) (c : string) (h : H) :
  first_accepting l c = Some h <->
  exists i, l !! i = Some h /\ can_handle h c = true /\
            forall j h', j < i -> l !! j = Some h' -> can_handle h' c = false.
Proof.
  induction l as [|x l IH]; simpl.
  - split; [done|]. by intros (i & Hi & _).
  - destruct (can_handle x c) eqn:Ex.
    + split.
      * intros [= <-]. exists 0. repeat split; [done|]. intros j h' Hj. lia.
      * intros ([|i] & Hi & Hc & Hbefore).
        -- by injection Hi as ->.
        -- specialize (Hbefore 0 x). rewrite Ex in Hbefore.
           discriminate Hbefore; [lia|done].
    + rewrite IH. split.
      * intros (i & Hi & Hc & Hbefore). exists (S i). repeat split; [done..|].
        intros [|j] h' Hj Hl; simpl in Hl.
        -- by injection Hl as <-.
        -- apply (Hbefore j); [lia|done].
      * intros ([|i] & Hi & Hc & Hbefore); simpl in Hi.
        -- injection Hi as ->. congruence.
        -- exists i. repeat split; [done..|]. intros j h' Hj Hl.
           apply (Hbefore (S j)); [lia|done].
Qed.

Lemma remove_wake_word_present reg (T : string) :
  has_wake_word reg T = true ->
  remove_wake_word reg T =
  strip (slice_from (len (wake_word reg)) (strip (lower T))).
Proof. unfold has_wake_word, remove_wake_word. by intros ->. Qed.

Lemma get_handler_present reg (T : string) :
  has_wake_word reg T = true ->
  get_handler reg T = first_accepting (_commands reg) (remove_wake_word reg T).
Proof. unfold get_handler. by intros ->. Qed.

Lemma has_wake_word_iff reg (T : string) :
  has_wake_word reg T = true <-> exists r, strip (lower T) = wake_word reg +:+ r.
Proof. unfold has_wake_word. apply startswith_iff. Qed.

(** C1: when the text carries the wake word, [get_handler] returns the
    first registered handler, in registration order, whose [can_handle]
    accepts the stripped, trimmed, case-folded remainder; an earlier
    match hides every later handler; and when no handler accepts,
    [execute_command] raises the no-handler-found dispatch error without
    touching the state. *)
Theorem get_handler_first_match reg (T : string) :
  has_wake_word reg T = true ->
  let remainder := strip (slice_from (len (wake_word reg)) (strip (lower T))) in
  (forall h, get_handler reg T = Some h <->
     exists i, _commands reg !! i = Some h /\ can_handle h remainder = true /\
       forall j h', j < i -> _commands reg !! j = Some h' ->
                    can_handle h' remainder = false) /\
  (forall pre h post,
     _commands reg = pre ++ h :: post ->
     Forall (fun x => can_handle x remainder = false) pre ->
     can_handle h remainder = true ->
     get_handler reg T = Some h) /\
  ((forall h, h ∈ _commands reg -> can_handle h remainder = false) ->
     get_handler reg T = None /\
     forall context st,
       execute_command reg T context st =
       (Raise (mk_exc CommandExecutionError ("No handler found for command: " +:+ T)), st)).
Proof.
  intros Hw remainder.
  pose proof (get_handler_present reg T Hw) as Hg.
  rewrite (remove_wake_word_present reg T Hw) in Hg. fold remainder in Hg.
  split; [|split].
  - intros h. rewrite Hg. apply first_accepting_some.
  - intros pre h post Hl Hpre Hh. rewrite Hg, Hl. by apply first_accepting_app.
  - intros Hnone. apply first_accepting_none in Hnone. rewrite <- Hg in Hnone.
    split; [done|]. intros context st. unfold execute_command.
    by rewrite Hw, Hnone.
Qed.

(** C2: a text whose case-folded, trimmed form does not start with the
    wake word makes [execute_command] raise the missing-wake-word
    dispatch error; the state comes back as it was, so no handler's
    [execute] has run. *)
Theorem execute_command_requires_wake_word reg (T : string) (context : context_t) st :
  ~ (exists r, strip (lower T) = wake_word reg +:+ r) ->
  execute_command reg T context st =
  (Raise (mk_exc CommandExecutionError
            ("Command must start with wake word '" +:+ wake_word reg +:+ "': " +:+ T)),
   st) /\
  get_handler reg T = None /\
  forall e st', execute_command reg T context st = (e, st') ->
    world st' = world st /\
    forall h c x, Executed h c x ∈ trace st' -> Executed h c x ∈ trace st.
Proof.
  intros Hno. rewrite <- has_wake_word_iff in Hno.
  apply not_true_is_false in Hno.
  assert (execute_command reg T context st =
          (Raise (mk_exc CommandExecutionError
             ("Command must start with wake word '" +:+ wake_word reg +:+ "': " +:+ T)), st))
    as Hrun by (unfold execute_command; by rewrite Hno).
  split; [done|]. split; [unfold get_handler; by rewrite Hno|].
  intros e st'. rewrite Hrun. by intros [= _ <-].
Qed.

End RegistryFacts.

Section DispatchFacts.
Context {H World : Type} `{EqDecision H} `{Command H World}.
Import PyStr.
Implicit Types (reg : CommandRegistry H) (h : H) (st : state H World).

Lemma issubclass_Exception (c : exc_class) : issubclass c Exception = true.
Proof. by destruct c. Qed.

Lemma issubclass_refl (c : exc_class) : issubclass c c = true.
Proof. unfold issubclass. by rewrite bool_decide_eq_true_2. Qed.

(** What [execute_command] does once a handler is selected. *)
Lemma execute_command_selected reg (T : string) (context : context_t) st h :
  has_wake_word reg T = true -> get_handler reg T = Some h ->
  execute_command reg T context st =
  let st1 := mk_state (execute h (remove_wake_word reg T) context (world st)).2
               (trace st ++ [Executed h (remove_wake_word reg T) context]) in
  match (execute h (remove_wake_word reg T) context (world st)).1 with
  | Return v => (Return v, st1)
  | Raise e =>
      (Raise (mk_exc CommandExecutionError ("Failed to execute command: " +:+ exc_str e)),
       mk_state (world st1)
         (trace st1 ++ [Logged registry_logger ERROR
                          ("Error executing command '" +:+ T +:+ "': " +:+ exc_str e)]))
  | Interrupt i => (Interrupt i, st1)
  end.
Proof.
  intros Hw Hg. unfold execute_command. rewrite Hw, Hg. simpl.
  unfold try_except, call_execute.
  destruct (execute h (remove_wake_word reg T) context (world st)) as [[v|e|i] w]; simpl;
    [done| |done].
  by rewrite issubclass_Exception.
Qed.

(** C3: whatever [execute_command] raises is a [CommandExecutionError];
    and when the selected handler's [execute] raises [e], the error
    raised is the [CommandExecutionError] whose message is
    "Failed to execute command: " followed by [str(e)], which therefore
    contains the handler's message. *)
Theorem execute_command_wraps_failure reg (T : string) (context : context_t) st :
  (forall e' st', execute_command reg T context st = (Raise e', st') ->
     exc_type e' = CommandExecutionError) /\
  (forall h e w',
     has_wake_word reg T = true ->
     get_handler reg T = Some h ->
     execute h (remove_wake_word reg T) context (world st) = (Raise e, w') ->
     let wrapped :=
       mk_exc CommandExecutionError ("Failed to execute command: " +:+ exc_str e) in
     exists st',
       execute_command reg T context st = (Raise wrapped, st') /\
       contains (exc_str wrapped) (exc_str e) = true /\
       world st' = w' /\
       trace st' =
         trace st ++ [Executed h (remove_wake_word reg T) context;
                      Logged registry_logger ERROR
                        ("Error executing command '" +:+ T +:+ "': " +:+ exc_str e)]).
Proof.
  split.
  - intros e' st'. destruct (has_wake_word reg T) eqn:Hw.
    + destruct (get_handler reg T) as [h|] eqn:Hg.
      * rewrite (execute_command_selected reg T context st h Hw Hg). simpl.
        destruct (execute h _ context (world st)) as [[v|e|i] w]; simpl; [done| |done].
        by intros [= <- _].
      * unfold execute_command. rewrite Hw, Hg. simpl. by intros [= <- _].
    + unfold execute_command. rewrite Hw. simpl. by intros [= <- _].
  - intros h e w' Hw Hg He wrapped.
    rewrite (execute_command_selected reg T context st h Hw Hg). rewrite He.
    cbn [fst snd world trace]. eexists. split; [reflexivity|].
    split; [apply contains_app_r|]. split; [done|].
    cbn [world trace]. by rewrite <- (assoc_L (++)).
Qed.

Lemma list_remove_app_last (l : list H) (h : H) : h ∉ l -> list_remove h (l ++ [h]) = l.
Proof.
  induction l as [|x l IH]; intros Hn; simpl.
  - by rewrite decide_True.
  - apply not_elem_of_cons in Hn as [Hne Hn].
    rewrite decide_False by done. by rewrite IH.
Qed.

(** C8: on a registry that does not hold [h], [register h] followed by
    [unregister h] gives back the registry it started from, handlers in
    the same order; and [unregister h] alone changes nothing at all. *)
Theorem register_unregister_restores reg h st :
  h ∉ _commands reg ->
  (exists reg1 st1 st2,
     register reg h st = (Return reg1, st1) /\
     _commands reg1 = _commands reg ++ [h] /\
     unregister reg1 h st1 = (Return reg, st2)) /\
  unregister reg h st = (Return reg, st).
Proof.
  intros Hn. destruct reg as [cmds w]. simpl in Hn. split.
  - eexists _, _, _. split; [reflexivity|]. split; [reflexivity|].
    unfold unregister. simpl.
    rewrite decide_True by (apply elem_of_app; right; by apply list_elem_of_singleton).
    by rewrite list_remove_app_last.
  - unfold unregister. simpl. by rewrite decide_False.
Qed.

Lemma reachable_wake_word (w : string) reg : reachable w reg -> wake_word reg = lower w.
Proof.
  induction 1 as [|reg h st reg' st' _ IH Hr|reg h st reg' st' _ IH Hu]; [done| |].
  - injection Hr as <- _. exact IH.
  - unfold unregister in Hu. destruct (decide (h ∈ _commands reg)).
    + injection Hu as <- _. exact IH.
    + by injection Hu as <- _.
Qed.

(** C7, as the code has it: in every state reachable from the
    constructor through [register] and [unregister] the stored wake
    word is the case-folded constructor argument, untouched by the
    operations; it is a fixed point of [lower]; and it is non-empty,
    respectively trimmed, exactly when the argument is. *)
Theorem wake_word_is_lowered_argument (w : string) reg :
  reachable w reg ->
  wake_word reg = lower w /\
  lower (wake_word reg) = wake_word reg /\
  (wake_word reg <> "" <-> w <> "") /\
  (trimmed (wake_word reg) <-> trimmed w).
Proof.
  intros Hr. apply reachable_wake_word in Hr. rewrite Hr.
  split; [done|]. split; [apply lower_idemp|].
  split; [by rewrite lower_empty_iff|apply trimmed_lower_iff].
Qed.

(** C10: the wake-word gate is a plain prefix test.  When the
    case-folded, trimmed text is the wake word followed by [r], with or
    without a separator, [has_wake_word] holds and [remove_wake_word]
    returns [r] stripped; the text with a space put after the wake word
    passes the gate too, leaves the same command, selects the same
    handler, and when a handler is selected [execute_command] ends the
    same way on both texts, with the same world. *)
Theorem run_together_wake_word (w : string) (handlers : list H) (T r : string) :
  let reg := mk_registry handlers (lower w) in
  strip (lower T) = wake_word reg +:+ r ->
  has_wake_word reg T = true /\
  remove_wake_word reg T = strip r /\
  let T' := wake_word reg +:+ " " +:+ r in
  has_wake_word reg T' = true /\
  remove_wake_word reg T' = remove_wake_word reg T /\
  get_handler reg T' = get_handler reg T /\
  forall h context st,
    get_handler reg T = Some h ->
    (execute_command reg T' context st).1 = (execute_command reg T context st).1 /\
    world (execute_command reg T' context st).2 = world (execute_command reg T context st).2.
Proof.
  intros reg Hr. simpl in Hr.
  assert (has_wake_word reg T = true) as Hw by (apply has_wake_word_iff; eauto).
  assert (remove_wake_word reg T = strip r) as Hrem.
  { rewrite remove_wake_word_present by done. simpl. by rewrite Hr, slice_from_app. }
  split; [done|]. split; [done|]. intros T'.
  assert (trimmed (lower w +:+ r)) as Ht by (rewrite <- Hr; apply strip_idemp).
  assert (lower r = r) as Hlr.
  { pose proof (lower_strip (lower T)) as Hl. rewrite lower_idemp, Hr in Hl.
    rewrite lower_app, lower_idemp in Hl.
    by apply app_inv_len in Hl as [_ ?]. }
  destruct (strip_space_between _ _ Ht) as (r' & Hs & Hr').
  assert (strip (lower T') = lower w +:+ r') as HT'.
  { unfold T'. simpl. rewrite !lower_app, lower_idemp, Hlr. exact Hs. }
  assert (has_wake_word reg T' = true) as Hw' by (apply has_wake_word_iff; eauto).
  assert (remove_wake_word reg T' = remove_wake_word reg T) as Hrem'.
  { rewrite Hrem, remove_wake_word_present by done. simpl.
    by rewrite HT', slice_from_app. }
  assert (get_handler reg T' = get_handler reg T) as Hg'
    by (by rewrite !get_handler_present, Hrem' by done).
  split; [done|]. split; [done|]. split; [done|].
  intros h context st Hg.
  rewrite (execute_command_selected reg T context st h Hw Hg).
  rewrite (execute_command_selected reg T' context st h Hw') by (by rewrite Hg').
  rewrite Hrem'. cbv zeta.
  by destruct (execute h (remove_wake_word reg T) context (world st)) as [[v|e|i] w0].
Qed.

End DispatchFacts.

(** ** The configuration model *)

Section ConfigFacts.
Import PyStr.

Lemma truthy_VStr (s : string) : truthy (VStr s) = true <-> s <> "".
Proof. by destruct s. Qed.

(** C6: constructing a device record from four identity strings raises
    the configuration error exactly when one of them is empty, and
    returns the record exactly when none is. *)
Theorem SmartDevice_new_fails_iff_empty_field (n i a k t : string) :
  let r := SmartDevice_new (VStr n) (VStr i) (VStr a) (VStr k) (VStr t) in
  (r = Raise (mk_exc ConfigurationError "All device fields are required") <->
   n = "" \/ i = "" \/ a = "" \/ k = "") /\
  (r = Return (mk_device (VStr n) (VStr i) (VStr a) (VStr k) (VStr t)) <->
   n <> "" /\ i <> "" /\ a <> "" /\ k <> "").
Proof.
  destruct n, i, a, k; cbn; intuition congruence.
Qed.

(** On fields of any kind the constructor fails exactly when an
    identity field is falsy. *)
Lemma SmartDevice_new_fails_iff_falsy (n i a k t : py_value) :
  SmartDevice_new n i a k t = Raise (mk_exc ConfigurationError "All device fields are required")
  <-> truthy n && truthy i && truthy a && truthy k = false.
Proof.
  unfold SmartDevice_new, SmartDevice_post_init. simpl.
  rewrite andb_true_r, !andb_assoc.
  by destruct (truthy n && truthy i && truthy a && truthy k).
Qed.

(** C5: [get_application_command] folds the query's case before the
    lookup, so two queries that differ only in letter case get the same
    answer; with the single shortcut "notepad" the query "Notepad"
    finds "notepad.exe". *)
Theorem get_application_command_case_insensitive
    (devices : list SmartDevice) (s : AssistantSettings) (shortcuts : gmap string string) :
  (forall q1 q2 : string,
     differ_only_in_case q1 q2 ->
     get_application_command (mk_config devices s shortcuts) q1 =
     get_application_command (mk_config devices s shortcuts) q2) /\
  get_application_command (mk_config devices s {[ "notepad" := "notepad.exe" ]}) "Notepad"
  = Some "notepad.exe".
Proof.
  split; [|done]. intros q1 q2 Hq. unfold get_application_command.
  by rewrite (differ_only_in_case_lower _ _ Hq).
Qed.

Variable call_error_text : string -> gmap string py_value -> string.

Lemma device_to_dict_dom (d : SmartDevice) : dom (device_to_dict d) ⊆ SmartDevice_fields.
Proof using Type. apply (bool_decide_unpack _). vm_compute. exact I. Qed.

Lemma SmartDevice_kwargs_to_dict (d : SmartDevice) :
  SmartDevice_kwargs call_error_text (device_to_dict d) =
  SmartDevice_new (name d) (device_id d) (ip_address d) (local_key d) (device_type d).
Proof.
  unfold SmartDevice_kwargs. rewrite decide_True by apply device_to_dict_dom.
  reflexivity.
Qed.

Lemma SmartDevice_new_valid (d : SmartDevice) :
  SmartDevice_post_init d = Return tt ->
  SmartDevice_new (name d) (device_id d) (ip_address d) (local_key d) (device_type d)
  = Return d.
Proof. destruct d. unfold SmartDevice_new. simpl. by intros ->. Qed.

Lemma comprehension_devices (l : list SmartDevice) :
  Forall (fun d => SmartDevice_post_init d = Return tt) l ->
  comprehension (SmartDevice_kwargs call_error_text) (device_to_dict <$> l) = Return l.
Proof.
  induction 1 as [|d l Hd _ IH]; [done|]. rewrite fmap_cons. cbn [comprehension].
  rewrite SmartDevice_kwargs_to_dict, SmartDevice_new_valid, IH by done. done.
Qed.

Lemma settings_to_dict_dom (s : AssistantSettings) :
  dom (settings_to_dict s) ⊆ AssistantSettings_fields.
Proof using Type. apply (bool_decide_unpack _). vm_compute. exact I. Qed.

Lemma AssistantSettings_kwargs_to_dict (s : AssistantSettings) :
  AssistantSettings_post_init s = Return tt ->
  AssistantSettings_kwargs call_error_text (settings_to_dict s) = Return (reloaded_settings s).
Proof.
  intros Hs. unfold AssistantSettings_kwargs.
  rewrite decide_True by apply settings_to_dict_dom.
  change ((AssistantSettings_post_init (reloaded_settings s);;
           Return (reloaded_settings s)) = Return (reloaded_settings s)).
  change (AssistantSettings_post_init (reloaded_settings s)) with
    (AssistantSettings_post_init s).
  by rewrite Hs.
Qed.

(** What the round trip does preserve: devices, shortcuts, and every
    setting that [to_dict] writes. *)
Lemma roundtrip_up_to_wake_word (c : Configuration) :
  Forall (fun d => SmartDevice_post_init d = Return tt) (smart_devices c) ->
  AssistantSettings_post_init (settings c) = Return tt ->
  from_dict call_error_text (to_dict c) =
  Return (mk_config (smart_devices c) (reloaded_settings (settings c))
            (application_shortcuts c)).
Proof.
  intros Hd Hs. unfold from_dict, to_dict. simpl.
  by rewrite (comprehension_devices _ Hd), (AssistantSettings_kwargs_to_dict _ Hs).
Qed.

End ConfigFacts.

Section RoundTrip.
Variable call_error_text : string -> gmap string py_value -> string.

(** The round trip gives the configuration back exactly when its wake
    word is the default one. *)
Lemma roundtrip_iff_default_wake_word (c : Configuration) :
  Forall (fun d => SmartDevice_post_init d = Return tt) (smart_devices c) ->
  AssistantSettings_post_init (settings c) = Return tt ->
  from_dict call_error_text (to_dict c) = Return c <->
  settings_wake_word (settings c) = VStr "peter".
Proof.
  intros Hd Hs. rewrite (roundtrip_up_to_wake_word _ _ Hd Hs).
  destruct c as [ds [a b l ll f w] sh]. simpl. unfold reloaded_settings. simpl.
  split; [by intros [= <-]|by intros ->].
Qed.

(** [test_from_dict_valid]: missing settings take their defaults. *)
Example from_dict_valid :
  from_dict call_error_text
    (mk_data
       (Some [ {[ "name" := VStr "Test Device"; "device_id" := VStr "test123";
                  "ip_address" := VStr "192.168.1.100"; "local_key" := VStr "testkey123";
                  "device_type" := VStr "light" ]} ])
       (Some {[ "speech_timeout" := VInt 10; "language" := VStr "en-US" ]})
       (Some {[ "notepad" := "notepad.exe" ]}))
  = Return
      (mk_config
         [mk_device (VStr "Test Device") (VStr "test123") (VStr "192.168.1.100")
            (VStr "testkey123") (VStr "light")]
         (mk_settings (VInt 10) (VInt 5) (VStr "en-US") (VStr "INFO") (VStr "screenshots")
            (VStr "peter"))
         {[ "notepad" := "notepad.exe" ]}).
Proof. reflexivity. Qed.

(** [test_from_dict_invalid]: an empty name fails the load. *)
Example from_dict_invalid :
  from_dict call_error_text
    (mk_data
       (Some [ {[ "name" := VStr ""; "device_id" := VStr "test123";
                  "ip_address" := VStr "192.168.1.100"; "local_key" := VStr "testkey123" ]} ])
       None None)
  = Raise (mk_exc ConfigurationError "All device fields are required").
Proof. reflexivity. Qed.

(** A wake word written in the file is read. *)
Example from_dict_reads_wake_word :
  (from_dict call_error_text (mk_data None (Some {[ "wake_word" := VStr "jarvis" ]}) None)
   ≫= fun c => Return (settings_wake_word (settings c)))
  = Return (VStr "jarvis").
Proof. reflexivity. Qed.

(** A key that is no field of the class is a format error. *)
Example from_dict_unknown_key :
  from_dict call_error_text (mk_data None (Some {[ "volume" := VInt 3 ]}) None)
  = Raise (mk_exc ConfigurationError
             ("Invalid configuration format: " +:+
              call_error_text "AssistantSettings" {[ "volume" := VInt 3 ]})).
Proof. reflexivity. Qed.

(** The settings dictionary [to_dict] writes has no "wake_word" key. *)
Lemma settings_to_dict_no_wake_word (s : AssistantSettings) :
  settings_to_dict s !! "wake_word" = None.
Proof using Type. reflexivity. Qed.

(** C4, at a configuration with the wake word "jarvis": the records are
    valid, [from_dict (to_dict c)] succeeds, devices, shortcuts and the
    five written settings come back, but the wake word comes back as
    "peter", so the reloaded configuration is not the one saved. *)
Theorem roundtrip_loses_wake_word :
  Forall valid_device (smart_devices jarvis_config) /\
  valid_settings (settings jarvis_config) /\
  exists c',
    from_dict call_error_text (to_dict jarvis_config) = Return c' /\
    smart_devices c' = smart_devices jarvis_config /\
    application_shortcuts c' = application_shortcuts jarvis_config /\
    settings_wake_word (settings jarvis_config) = VStr "jarvis" /\
    settings_wake_word (settings c') = VStr "peter" /\
    c' <> jarvis_config.
Proof.
  split; [|split].
  - repeat constructor. by eexists _, _, _, _, _.
  - split; [by eexists _, _, _, _, _, _|done].
  - eexists. split; [reflexivity|]. repeat split. discriminate.
Qed.

End RoundTrip.

(** ** The orchestrator *)

Section AssistantFacts.
Context {H World : Type} `{EqDecision H} `{Command H World}.
Implicit Types (st : state H World).

Lemma M_bind_unfold {A B} (m : M H World A) (f : A -> M H World B) st :
  (m ≫= f) st =
  match m st with
  | (Return a, st') => f a st'
  | (Raise e, st') => (Raise e, st')
  | (Interrupt i, st') => (Interrupt i, st')
  end.
Proof. reflexivity. Qed.

(** The state in which [_process_command_safely] calls the registry. *)
Lemma process_command_safely_unfold (self : VoiceAssistant) (command : string) st :
  let st1 := mk_state (world st)
    (trace st ++ [Logged assistant_logger INFO ("Processing command: " +:+ command)]) in
  _process_command_safely self command st =
  match port_execute_command (command_registry self) command None st1 with
  | (Return result, st2) =>
      (Return tt,
       mk_state (world st2)
         (trace st2 ++
          [Logged assistant_logger INFO
             (if truthy result
              then "Command executed successfully: " +:+ py_str result
              else "Command executed successfully")]))
  | (Raise e, st2) =>
      (Return tt,
       mk_state (world st2)
         (trace st2 ++
          [Logged assistant_logger ERROR
             (if issubclass (exc_type e) CommandExecutionError
              then "Command execution error: " +:+ exc_str e
              else "Unexpected error processing command '" +:+ command +:+ "': "
                   +:+ exc_str e)]))
  | (Interrupt i, st2) => (Interrupt i, st2)
  end.
Proof.
  intros st1. unfold _process_command_safely, try_except.
  rewrite M_bind_unfold. unfold log at 1. fold st1. rewrite M_bind_unfold.
  destruct (port_execute_command (command_registry self) command None st1)
    as [[result|e|i] st2]; [by destruct (truthy result)| |done].
  destruct (issubclass (exc_type e) CommandExecutionError); [done|].
  by rewrite issubclass_Exception.
Qed.


(** With a [CommandRegistry] injected and handlers that raise nothing
    outside [Exception], the step returns normally on every command. *)
Lemma process_command_safely_registry (reg : CommandRegistry H) (is_running : bool)
    (command : string) st :
  (forall h c x w i, (execute h c x w).1 <> Interrupt i) ->
  exists st',
    _process_command_safely (mk_assistant (port_of_registry reg) is_running) command st
    = (Return tt, st').
Proof.
  intros Hsafe. rewrite process_command_safely_unfold. cbn zeta.
  set (st1 := mk_state _ _).
  destruct (port_execute_command _ command None st1) as [[result|e|i] st2] eqn:E; eauto.
  exfalso. simpl in E. unfold execute_command in E.
  destruct (has_wake_word reg command); [|done]. simpl in E.
  destruct (get_handler reg command) as [h|]; [|done].
  unfold try_except, call_execute in E.
  destruct (execute h (remove_wake_word reg command) None (world st1)) as [[v|e|j] w] eqn:Ee;
    simpl in E; try done.
  - by rewrite issubclass_Exception in E.
  - apply (Hsafe h (remove_wake_word reg command) None (world st1) j). by rewrite Ee.
Qed.

End AssistantFacts.

(** ** The scenarios *)

Section Scenarios.
Import PyStr.

(** Scenario A: the browser handler is selected and run on the command
    without the wake word. *)
Example scenario_A :
  execute_command browser_registry "peter buka youtube" None st0 =
  (Return (VStr "YouTube opened"),
   mk_state ["buka youtube"] [Executed browser_handler "buka youtube" None]).
Proof. reflexivity. Qed.

(** Scenario B: no wake word, no handler run. *)
Example scenario_B :
  execute_command browser_registry "buka youtube" None st0 =
  (Raise (mk_exc CommandExecutionError
            "Command must start with wake word 'peter': buka youtube"), st0).
Proof. reflexivity. Qed.

(** Scenario C: both handlers accept the remainder, the first one runs. *)
Example scenario_C :
  can_handle H1 "nyalakan lampu nyala" = true /\
  can_handle H2 "nyalakan lampu nyala" = true /\
  get_handler lamp_registry "peter nyalakan lampu nyala" = Some H1 /\
  execute_command lamp_registry "peter nyalakan lampu nyala" None st0 =
  (Return (VStr "H1 done"),
   mk_state ["nyalakan lampu nyala"] [Executed H1 "nyalakan lampu nyala" None]).
Proof. repeat split. Qed.

(** A run-together utterance passes the gate. *)
Example run_together_example :
  has_wake_word browser_registry "peterbuka youtube" = true /\
  remove_wake_word browser_registry "peterbuka youtube" = "buka youtube" /\
  get_handler browser_registry "peterbuka youtube" = Some browser_handler.
Proof. repeat split. Qed.

(** The wake word only counts at the start of the text. *)
Example wake_word_inside_example :
  has_wake_word browser_registry "tolong peter buka youtube" = false.
Proof. reflexivity. Qed.

Lemma get_handler_first_match_witness :
  has_wake_word lamp_registry "peter nyalakan lampu nyala" = true /\
  get_handler lamp_registry "peter nyalakan lampu nyala" = Some H1.
Proof.
  split; [reflexivity|].
  destruct (get_handler_first_match lamp_registry "peter nyalakan lampu nyala" eq_refl)
    as (_ & Hfirst & _).
  apply (Hfirst [] H1 [H2]); [reflexivity|constructor|reflexivity].
Defined.

Lemma execute_command_requires_wake_word_witness :
  ~ (exists r, strip (lower "buka youtube") = wake_word browser_registry +:+ r) /\
  execute_command browser_registry "buka youtube" None st0 =
  (Raise (mk_exc CommandExecutionError
            "Command must start with wake word 'peter': buka youtube"), st0).
Proof.
  assert (~ (exists r, strip (lower "buka youtube") = wake_word browser_registry +:+ r))
    as Hno by (intros [r Hr]; discriminate Hr).
  split; [exact Hno|].
  exact (proj1 (execute_command_requires_wake_word browser_registry
                  "buka youtube" None st0 Hno)).
Defined.

Lemma execute_command_wraps_failure_witness :
  has_wake_word failing_registry "peter buka youtube" = true /\
  get_handler failing_registry "peter buka youtube" = Some failing_handler /\
  execute failing_handler (remove_wake_word failing_registry "peter buka youtube") None
    (world st0)
  = (Raise (mk_exc ApplicationLaunchError "Application not found: youtube"),
     ["buka youtube"]) /\
  exists st',
    execute_command failing_registry "peter buka youtube" None st0 =
    (Raise (mk_exc CommandExecutionError
              "Failed to execute command: Application not found: youtube"), st').
Proof.
  assert (has_wake_word failing_registry "peter buka youtube" = true) as Hw
    by reflexivity.
  assert (get_handler failing_registry "peter buka youtube" = Some failing_handler) as Hg
    by reflexivity.
  assert (execute failing_handler
            (remove_wake_word failing_registry "peter buka youtube") None (world st0)
          = (Raise (mk_exc ApplicationLaunchError "Application not found: youtube"),
             ["buka youtube"])) as He by reflexivity.
  split; [exact Hw|]. split; [exact Hg|]. split; [exact He|].
  destruct (proj2 (execute_command_wraps_failure failing_registry
                     "peter buka youtube" None st0) _ _ _ Hw Hg He) as (st' & Hrun & _).
  exists st'. exact Hrun.
Defined.

Lemma register_unregister_restores_witness :
  (H2 ∉ _commands (mk_registry [H1] "peter")) /\
  exists reg1 st1 st2,
    register (mk_registry [H1] "peter") H2 st0 = (Return reg1, st1) /\
    _commands reg1 = [H1; H2] /\
    unregister reg1 H2 st1 = (Return (mk_registry [H1] "peter"), st2).
Proof.
  assert (H2 ∉ _commands (mk_registry [H1] "peter")) as Hn.
  { apply (bool_decide_unpack _). vm_compute. exact I. }
  split; [exact Hn|].
  exact (proj1 (register_unregister_restores (mk_registry [H1] "peter") H2 st0 Hn)).
Defined.

Lemma wake_word_is_lowered_argument_witness :
  reachable (World:=list string) "Peter" (mk_registry [H1] "peter") /\
  wake_word (mk_registry [H1] "peter") = lower "Peter" /\
  wake_word (mk_registry [H1] "peter") <> "" /\
  trimmed (wake_word (mk_registry [H1] "peter")).
Proof.
  assert (reachable (World:=list string) "Peter" (mk_registry [H1] "peter")) as Hr.
  { eapply (reachable_register "Peter" (CommandRegistry_init "Peter") H1 st0).
    - apply reachable_init.
    - reflexivity. }
  split; [exact Hr|].
  destruct (wake_word_is_lowered_argument "Peter" _ Hr) as (Hw & _ & Hne & Ht).
  split; [exact Hw|]. split; [apply Hne; discriminate|apply Ht; reflexivity].
Defined.

Lemma run_together_wake_word_witness :
  strip (lower "PeterBuka YouTube")
  = wake_word (mk_registry [browser_handler] (lower "Peter")) +:+ "buka youtube" /\
  has_wake_word browser_registry "PeterBuka YouTube" = true /\
  remove_wake_word browser_registry "PeterBuka YouTube" = "buka youtube" /\
  get_handler browser_registry "peter buka youtube"
  = get_handler browser_registry "PeterBuka YouTube".
Proof.
  split; [reflexivity|].
  destruct (run_together_wake_word "Peter" [browser_handler] "PeterBuka YouTube"
              "buka youtube" eq_refl) as (Hw & Hrem & _ & _ & Hg & _).
  split; [exact Hw|]. split; [exact Hrem|]. exact Hg.
Defined.

Lemma SmartDevice_new_fails_iff_empty_field_witness :
  SmartDevice_new (VStr "") (VStr "test123") (VStr "192.168.1.100") (VStr "testkey123")
    (VStr "outlet")
  = Raise (mk_exc ConfigurationError "All device fields are required") /\
  SmartDevice_new (VStr "Test Device") (VStr "test123") (VStr "192.168.1.100")
    (VStr "testkey123") (VStr "outlet")
  = Return (mk_device (VStr "Test Device") (VStr "test123") (VStr "192.168.1.100")
              (VStr "testkey123") (VStr "outlet")).
Proof.
  split.
  - apply (proj1 (SmartDevice_new_fails_iff_empty_field
                    "" "test123" "192.168.1.100" "testkey123" "outlet")).
    left. reflexivity.
  - apply (proj2 (SmartDevice_new_fails_iff_empty_field
                    "Test Device" "test123" "192.168.1.100" "testkey123" "outlet")).
    repeat split; discriminate.
Defined.

Lemma get_application_command_case_insensitive_witness :
  differ_only_in_case "Notepad" "NOTEPAD" /\
  get_application_command (mk_config [] AssistantSettings_default
                             {[ "notepad" := "notepad.exe" ]}) "Notepad"
  = get_application_command (mk_config [] AssistantSettings_default
                               {[ "notepad" := "notepad.exe" ]}) "NOTEPAD".
Proof.
  assert (differ_only_in_case "Notepad" "NOTEPAD") as Hd.
  { repeat (constructor;
            [(left; reflexivity) || (right; left; reflexivity) || (right; right; reflexivity)|]).
    constructor. }
  split; [exact Hd|].
  exact (proj1 (get_application_command_case_insensitive [] AssistantSettings_default
                  {[ "notepad" := "notepad.exe" ]}) "Notepad" "NOTEPAD" Hd).
Defined.


(** C7 as stated fails: the constructor stores the empty string for the
    empty argument, and keeps the blanks around an argument. *)
Lemma wake_word_invariant_counterexample :
  ~ stated_wake_word_invariant (CommandRegistry_init (H:=scripted_handler) "") /\
  ~ stated_wake_word_invariant (CommandRegistry_init (H:=scripted_handler) " Peter ").
Proof.
  split.
  - intros (Hne & _). by apply Hne.
  - intros (_ & Ht & _). discriminate Ht.
Qed.

End Scenarios.

(** * Further properties of the code *)

(** ** More on strings *)

Section StringFactsMore.
Import PyStr.

Lemma lower_slice_from (n : nat) (s : string) :
  lower (slice_from n s) = slice_from n (lower s).
Proof.
  revert s. induction n as [|n IH]; intros s; [done|].
  destruct s as [|c s]; [done|]. simpl. apply IH.
Qed.

Lemma strip_head (s : string) :
  strip s = "" \/ exists c s', strip s = String c s' /\ is_space c = false.
Proof.
  unfold strip. destruct (lstrip_head s) as [->|(c & s' & -> & Hc)]; [by left|].
  destruct (rstrip_cons_cases c s') as [->|[r ->]]; [by left|]. right. eauto.
Qed.

Lemma strip_strip (s : string) : strip (strip s) = strip s.
Proof. apply strip_idemp. Qed.

Lemma startswith_nil (s : string) : startswith s "" = true.
Proof. by destruct s. Qed.

Lemma startswith_space_head (s w : string) (c : ascii) :
  is_space c = true -> startswith (strip s) (String c w) = false.
Proof.
  intros Hc. destruct (strip_head s) as [->|(d & s' & -> & Hd)]; [done|].
  simpl. destruct (ascii_dec c d) as [->|]; [congruence|done].
Qed.

End StringFactsMore.

(** ** More on the registry *)

Section RegistryMore.
Context {H World : Type} `{EqDecision H} `{Command H World}.
Import PyStr.
Implicit Types (reg : CommandRegistry H) (h : H) (st : state H World).

Lemma first_accepting_elem (l : list H) (c : string) (h : H) :
  first_accepting l c = Some h -> h ∈ l /\ can_handle h c = true.
Proof.
  induction l as [|x l IH]; [done|]. simpl. destruct (can_handle x c) eqn:Ex.
  - intros [= <-]. split; [apply elem_of_cons; by left|done].
  - intros Hf. destruct (IH Hf). split; [apply elem_of_cons; by right|done].
Qed.

Lemma get_handler_wake_word reg (T : string) h :
  get_handler reg T = Some h -> has_wake_word reg T = true.
Proof. unfold get_handler. by destruct (has_wake_word reg T). Qed.

(** X1: a handler [get_handler] returns is registered, accepts the
    command without the wake word, and the text carried the wake word. *)
Theorem get_handler_sound reg (T : string) h :
  get_handler reg T = Some h ->
  has_wake_word reg T = true /\
  h ∈ _commands reg /\
  can_handle h (remove_wake_word reg T) = true.
Proof.
  intros Hg. pose proof (get_handler_wake_word _ _ _ Hg) as Hw.
  split; [done|]. rewrite (get_handler_present _ _ Hw) in Hg.
  by apply first_accepting_elem.
Qed.

(** X2: what [remove_wake_word] returns is always trimmed and
    lower-case, whether the wake word was there or not. *)
Theorem remove_wake_word_normal_form reg (T : string) :
  trimmed (remove_wake_word reg T) /\
  lower (remove_wake_word reg T) = remove_wake_word reg T.
Proof.
  unfold remove_wake_word.
  destruct (startswith (strip (lower T)) (wake_word reg)).
  - split; [apply strip_idemp|].
    by rewrite lower_strip, lower_slice_from, lower_strip, lower_idemp.
  - split; [apply strip_idemp|]. by rewrite lower_strip, lower_idemp.
Qed.

(** X3: [execute_command] calls [execute] on the handler [get_handler]
    selects, once, with the command without the wake word, and on no
    handler when none is selected. *)
Theorem execute_command_single_call reg (T : string) (context : context_t) st :
  executed_calls (trace (execute_command reg T context st).2) =
  executed_calls (trace st) ++
  match get_handler reg T with
  | Some h => [(h, remove_wake_word reg T, context)]
  | None => []
  end.
Proof.
  destruct (get_handler reg T) as [h|] eqn:Hg.
  - pose proof (get_handler_wake_word _ _ _ Hg) as Hw.
    rewrite (execute_command_selected reg T context st h Hw Hg). cbv zeta.
    destruct (execute h (remove_wake_word reg T) context (world st)) as [[v|e|i] w];
      cbn [fst snd trace]; unfold executed_calls; rewrite ?omap_app; cbn [omap list_omap];
      by rewrite ?(right_id_L [] (++)).
  - unfold execute_command. destruct (has_wake_word reg T); simpl.
    + rewrite Hg. simpl. by rewrite (right_id_L [] (++)).
    + by rewrite (right_id_L [] (++)).
Qed.

(** X4: what the selected handler returns is returned as it is, and an
    interrupt that is no [Exception] goes through unwrapped; in both
    cases the registry logs nothing. *)
Theorem execute_command_passes_through reg (T : string) (context : context_t) st h w' :
  get_handler reg T = Some h ->
  let st' := mk_state w' (trace st ++ [Executed h (remove_wake_word reg T) context]) in
  (forall v, execute h (remove_wake_word reg T) context (world st) = (Return v, w') ->
     execute_command reg T context st = (Return v, st')) /\
  (forall i, execute h (remove_wake_word reg T) context (world st) = (Interrupt i, w') ->
     execute_command reg T context st = (Interrupt i, st')).
Proof.
  intros Hg st'. pose proof (get_handler_wake_word _ _ _ Hg) as Hw.
  split; intros x Hx; rewrite (execute_command_selected reg T context st h Hw Hg);
    by rewrite Hx.
Qed.

Lemma list_remove_split (l : list H) (h : H) :
  h ∈ l -> exists l1 l2, l = l1 ++ h :: l2 /\ (h ∉ l1) /\ list_remove h l = l1 ++ l2.
Proof.
  induction l as [|x l IH]; intros Hin; [by apply elem_of_nil in Hin|].
  simpl. destruct (decide (x = h)) as [->|Hne].
  - exists [], l. repeat split. apply not_elem_of_nil.
  - apply elem_of_cons in Hin as [->|Hin]; [done|].
    destruct (IH Hin) as (l1 & l2 & -> & Hn & ->).
    exists (x :: l1), l2. repeat split. apply not_elem_of_cons. split; [congruence|done].
Qed.

(** X5: [unregister] takes out the first occurrence of the handler and
    nothing else; a handler registered twice stays registered once. *)
Theorem unregister_removes_first_occurrence reg h st :
  h ∈ _commands reg ->
  exists l1 l2,
    _commands reg = l1 ++ h :: l2 /\ (h ∉ l1) /\
    unregister reg h st =
    (Return (mk_registry (l1 ++ l2) (wake_word reg)),
     mk_state (world st)
       (trace st ++ [Logged registry_logger INFO
                       ("Unregistered command handler: " +:+ class_name h)])).
Proof.
  intros Hin. destruct (list_remove_split _ _ Hin) as (l1 & l2 & Hl & Hn & Hr).
  exists l1, l2. split; [done|]. split; [done|].
  unfold unregister. rewrite decide_True by done. by rewrite Hr.
Qed.

Lemma first_accepting_snoc (l : list H) (h' : H) (c : string) :
  first_accepting (l ++ [h']) c =
  match first_accepting l c with
  | Some h => Some h
  | None => if can_handle h' c then Some h' else None
  end.
Proof.
  induction l as [|x l IH]; simpl; [done|]. by destruct (can_handle x c).
Qed.

(** X6: registering a handler never changes the handler an utterance
    already selects; the new handler is selected only for utterances
    with the wake word that no earlier handler accepts. *)
Theorem register_keeps_priority reg h' st reg' st' (T : string) :
  register reg h' st = (Return reg', st') ->
  get_handler reg' T =
  match get_handler reg T with
  | Some h => Some h
  | None =>
      if has_wake_word reg T && can_handle h' (remove_wake_word reg T)
      then Some h' else None
  end.
Proof.
  intros [= <- _]. unfold get_handler, has_wake_word, remove_wake_word. simpl.
  destruct (startswith (strip (lower T)) (wake_word reg)); simpl; [|done].
  apply first_accepting_snoc.
Qed.

Lemma first_accepting_remove_other (l : list H) (h h' : H) (c : string) :
  h' <> h -> first_accepting l c = Some h ->
  first_accepting (list_remove h' l) c = Some h.
Proof.
  intros Hne. induction l as [|x l IH]; [done|]. simpl.
  destruct (can_handle x c) eqn:Ex.
  - intros [= ->]. rewrite decide_False by congruence. simpl. by rewrite Ex.
  - intros Hf. destruct (decide (x = h')); [done|]. simpl. rewrite Ex. by apply IH.
Qed.

(** X7: unregistering a handler leaves the selection of every utterance
    that selected another handler as it was. *)
Theorem unregister_other_keeps_selection reg h h' st reg' st' (T : string) :
  get_handler reg T = Some h -> h' <> h ->
  unregister reg h' st = (Return reg', st') ->
  get_handler reg' T = Some h.
Proof.
  intros Hg Hne Hu. unfold unregister in Hu.
  destruct (decide (h' ∈ _commands reg)); injection Hu as <- _; [|done].
  revert Hg. unfold get_handler, has_wake_word, remove_wake_word. simpl.
  destruct (startswith (strip (lower T)) (wake_word reg)); simpl; [|done].
  by apply first_accepting_remove_other.
Qed.

End RegistryMore.

Section RegistryListing.
Context {H World : Type} `{EqDecision H} `{Command H World}.
Import PyStr.
Implicit Types (reg : CommandRegistry H) (h : H) (st : state H World).

Lemma list_commands_fold reg :
  list_commands reg =
  foldl (fun commands x => <[class_name x := command_entry reg x]> commands) ∅ (_commands reg).
Proof. reflexivity. Qed.

Lemma listing_fold_other reg (l : list H) (acc : gmap string command_info) (k : string) :
  (forall x, x ∈ l -> class_name x <> k) ->
  foldl (fun commands x => <[class_name x := command_entry reg x]> commands) acc l !! k
  = acc !! k.
Proof.
  revert acc. induction l as [|x l IH]; intros acc Hl; [done|]. simpl.
  rewrite IH by (intros y Hy; apply Hl, elem_of_cons; by right).
  apply lookup_insert_ne, Hl, elem_of_cons. by left.
Qed.

Lemma listing_fold_some reg (l : list H) (acc : gmap string command_info)
    (k : string) (info : command_info) :
  foldl (fun commands x => <[class_name x := command_entry reg x]> commands) acc l !! k
  = Some info ->
  acc !! k = Some info \/ exists h, h ∈ l /\ class_name h = k /\ info = command_entry reg h.
Proof.
  revert acc. induction l as [|x l IH]; intros acc Hf; [by left|]. simpl in Hf.
  destruct (IH _ Hf) as [Hacc|(h & Hh & Hk & Hi)].
  - destruct (decide (class_name x = k)) as [Hx|Hx].
    + rewrite <- Hx, lookup_insert_eq in Hacc. injection Hacc as <-.
      right. exists x. split; [apply elem_of_cons; by left|done].
    + rewrite lookup_insert_ne in Hacc by done. by left.
  - right. exists h. split; [apply elem_of_cons; by right|done].
Qed.

(** X8: every entry of [list_commands] describes a registered handler
    of that class name, with each pattern prefixed by the wake word and
    a space; and of several handlers with one class name the entry is
    that of the one registered last. *)
Theorem list_commands_entries reg :
  (forall k info,
     list_commands reg !! k = Some info ->
     info_wake_word info = wake_word reg /\
     exists h, h ∈ _commands reg /\ class_name h = k /\
       info_description info = description h /\
       info_patterns info =
         (fun pattern => wake_word reg +:+ " " +:+ pattern) <$> command_patterns h) /\
  (forall l1 h l2,
     _commands reg = l1 ++ h :: l2 ->
     (forall x, x ∈ l2 -> class_name x <> class_name h) ->
     list_commands reg !! class_name h = Some (command_entry reg h)).
Proof.
  rewrite list_commands_fold. split.
  - intros k info Hk. apply listing_fold_some in Hk as [Hk|(h & Hh & Hc & ->)].
    + by rewrite lookup_empty in Hk.
    + split; [done|]. by exists h.
  - intros l1 h l2 -> Hl2. rewrite foldl_app. simpl.
    rewrite listing_fold_other by done. apply lookup_insert_eq.
Qed.

(** X9: a registry built with a wake word that begins with a blank
    accepts no utterance at all: the trimmed text never begins with a
    blank, so [execute_command] always raises the missing-wake-word
    error. *)
Theorem blank_led_wake_word_rejects_all (c : ascii) (w : string) reg :
  reachable (String c w) reg -> is_space c = true ->
  forall (T : string) (context : context_t) st,
    has_wake_word reg T = false /\
    execute_command reg T context st =
    (Raise (mk_exc CommandExecutionError
              ("Command must start with wake word '" +:+ wake_word reg +:+ "': " +:+ T)),
     st).
Proof.
  intros Hr Hc T context st. apply reachable_wake_word in Hr.
  assert (has_wake_word reg T = false) as Hw.
  { unfold has_wake_word. rewrite Hr. simpl.
    apply startswith_space_head. by rewrite is_space_lower_char. }
  split; [done|]. unfold execute_command. by rewrite Hw.
Qed.

(** X10: a registry built with the empty wake word lets every
    utterance through the gate, and hands the handlers the whole
    case-folded, trimmed text. *)
Theorem empty_wake_word_accepts_all reg :
  reachable "" reg ->
  forall T : string,
    has_wake_word reg T = true /\ remove_wake_word reg T = strip (lower T).
Proof.
  intros Hr T. apply reachable_wake_word in Hr.
  unfold has_wake_word, remove_wake_word. rewrite Hr. simpl.
  rewrite startswith_nil. split; [done|]. apply strip_strip.
Qed.

End RegistryListing.

Section RegistryMoreWitnesses.
Import PyStr.

Lemma get_handler_sound_witness :
  get_handler lamp_registry "peter nyalakan lampu nyala" = Some H1 /\
  (H1 ∈ _commands lamp_registry) /\
  can_handle H1 (remove_wake_word lamp_registry "peter nyalakan lampu nyala") = true.
Proof.
  assert (get_handler lamp_registry "peter nyalakan lampu nyala" = Some H1) as Hg
    by reflexivity.
  split; [exact Hg|].
  exact (proj2 (get_handler_sound lamp_registry "peter nyalakan lampu nyala" H1 Hg)).
Defined.

Lemma execute_command_passes_through_witness :
  get_handler browser_registry "peter buka youtube" = Some browser_handler /\
  execute_command browser_registry "peter buka youtube" None st0 =
  (Return (VStr "YouTube opened"),
   mk_state ["buka youtube"] [Executed browser_handler "buka youtube" None]).
Proof.
  assert (get_handler browser_registry "peter buka youtube" = Some browser_handler) as Hg
    by reflexivity.
  split; [exact Hg|].
  apply (proj1 (execute_command_passes_through browser_registry "peter buka youtube"
                  None st0 browser_handler ["buka youtube"] Hg)).
  reflexivity.
Defined.

Lemma unregister_removes_first_occurrence_witness :
  (H1 ∈ _commands (mk_registry [H1; H2; H1] "peter")) /\
  exists st',
    unregister (mk_registry [H1; H2; H1] "peter") H1 st0
    = (Return (mk_registry [H2; H1] "peter"), st').
Proof.
  assert (H1 ∈ _commands (mk_registry [H1; H2; H1] "peter")) as Hin
    by (apply elem_of_cons; by left).
  split; [exact Hin|].
  destruct (unregister_removes_first_occurrence (mk_registry [H1; H2; H1] "peter") H1 st0 Hin)
    as (l1 & l2 & Hl & Hn & Hu).
  destruct l1 as [|x l1].
  - injection Hl as <-. eexists. exact Hu.
  - injection Hl as <- _. destruct Hn. apply elem_of_cons. by left.
Defined.

Lemma register_keeps_priority_witness :
  register (mk_registry [H1] "peter") H2 st0
  = (Return lamp_registry,
     mk_state [] [Logged registry_logger INFO "Registered command handler: H2"]) /\
  get_handler lamp_registry "peter nyalakan lampu nyala" = Some H1.
Proof.
  assert (register (mk_registry [H1] "peter") H2 st0
          = (Return lamp_registry,
             mk_state [] [Logged registry_logger INFO "Registered command handler: H2"]))
    as Hr by reflexivity.
  split; [exact Hr|].
  exact (register_keeps_priority _ _ _ _ _ "peter nyalakan lampu nyala" Hr).
Defined.

Lemma unregister_other_keeps_selection_witness :
  get_handler lamp_registry "peter nyalakan lampu nyala" = Some H1 /\
  H2 <> H1 /\
  unregister lamp_registry H2 st0
  = (Return (mk_registry [H1] "peter"),
     mk_state [] [Logged registry_logger INFO "Unregistered command handler: H2"]) /\
  get_handler (mk_registry [H1] "peter") "peter nyalakan lampu nyala" = Some H1.
Proof.
  assert (get_handler lamp_registry "peter nyalakan lampu nyala" = Some H1) as Hg
    by reflexivity.
  assert (H2 <> H1) as Hne by discriminate.
  assert (unregister lamp_registry H2 st0
          = (Return (mk_registry [H1] "peter"),
             mk_state [] [Logged registry_logger INFO "Unregistered command handler: H2"]))
    as Hu by (vm_compute; reflexivity).
  split; [exact Hg|]. split; [exact Hne|]. split; [exact Hu|].
  exact (unregister_other_keeps_selection _ _ _ _ _ _ _ Hg Hne Hu).
Defined.

Lemma list_commands_entries_witness :
  list_commands (mk_registry [H1; H2; mk_scripted "H1" ["nyala"] (Return VNone)] "peter")
    !! "H1"
  = Some (mk_info ["peter nyala"] "Scripted handler" "peter").
Proof.
  exact (proj2 (list_commands_entries
                  (mk_registry [H1; H2; mk_scripted "H1" ["nyala"] (Return VNone)] "peter"))
           [H1; H2] (mk_scripted "H1" ["nyala"] (Return VNone)) [] eq_refl
           (fun x Hx => False_ind _ (proj1 (elem_of_nil x) Hx))).
Defined.

Lemma blank_led_wake_word_rejects_all_witness :
  reachable (H:=scripted_handler) (World:=list string) " peter"
    (CommandRegistry_init " peter") /\
  is_space " " = true /\
  has_wake_word (CommandRegistry_init (H:=scripted_handler) " peter") " peter buka youtube"
  = false.
Proof.
  assert (reachable (H:=scripted_handler) (World:=list string) " peter"
            (CommandRegistry_init " peter")) as Hr by apply reachable_init.
  split; [exact Hr|]. split; [reflexivity|].
  exact (proj1 (blank_led_wake_word_rejects_all " " "peter" _ Hr eq_refl
                  " peter buka youtube" None st0)).
Defined.

Lemma empty_wake_word_accepts_all_witness :
  reachable (H:=scripted_handler) (World:=list string) "" (CommandRegistry_init "") /\
  has_wake_word (CommandRegistry_init (H:=scripted_handler) "") " Buka YouTube " = true /\
  remove_wake_word (CommandRegistry_init (H:=scripted_handler) "") " Buka YouTube "
  = "buka youtube".
Proof.
  assert (reachable (H:=scripted_handler) (World:=list string) "" (CommandRegistry_init ""))
    as Hr by apply reachable_init.
  split; [exact Hr|].
  exact (empty_wake_word_accepts_all _ Hr " Buka YouTube ").
Defined.

End RegistryMoreWitnesses.

(** ** More on the configuration model *)

Section ConfigMore.
Import PyStr.

Lemma log_levels_elem (ll : string) :
  VStr ll ∈ log_levels <-> ll ∈ ["DEBUG"; "INFO"; "WARNING"; "ERROR"; "CRITICAL"].
Proof.
  change log_levels with (VStr <$> ["DEBUG"; "INFO"; "WARNING"; "ERROR"; "CRITICAL"]).
  rewrite list_elem_of_fmap. split.
  - by intros (x & [= ->] & Hx).
  - intros Hx. by exists ll.
Qed.

(** X11: with integer timeouts and a string log level, the settings
    record is built exactly when both timeouts are positive and the
    level is one of the five names; a bad timeout is reported before a
    bad level. *)
Theorem AssistantSettings_new_accepts_iff (st pt : Z) (l ll sf w : string) :
  let r := AssistantSettings_new (VInt st) (VInt pt) (VStr l) (VStr ll) (VStr sf) (VStr w) in
  (r = Return (mk_settings (VInt st) (VInt pt) (VStr l) (VStr ll) (VStr sf) (VStr w)) <->
   (0 < st)%Z /\ (0 < pt)%Z /\ ll ∈ ["DEBUG"; "INFO"; "WARNING"; "ERROR"; "CRITICAL"]) /\
  (r = Raise (mk_exc ConfigurationError "Timeout values must be positive") <->
   (st <= 0)%Z \/ (pt <= 0)%Z) /\
  (r = Raise (mk_exc ConfigurationError "Invalid log level") <->
   (0 < st)%Z /\ (0 < pt)%Z /\ ll ∉ ["DEBUG"; "INFO"; "WARNING"; "ERROR"; "CRITICAL"]).
Proof.
  cbv zeta. unfold AssistantSettings_new, AssistantSettings_post_init. cbn.
  rewrite <- log_levels_elem.
  destruct (Z.leb_spec st 0) as [Hs|Hs]; cbn.
  { intuition (discriminate || lia). }
  destruct (Z.leb_spec pt 0) as [Hp|Hp]; cbn.
  { intuition (discriminate || lia). }
  destruct (bool_decide_reflect (VStr ll ∈ log_levels)) as [Hl|Hl]; cbn;
    intuition (discriminate || lia).
Qed.

Variable call_error_text : string -> gmap string py_value -> string.

Lemma SmartDevice_new_outcome (n i a k t : py_value) :
  SmartDevice_new n i a k t = Return (mk_device n i a k t) /\
  SmartDevice_post_init (mk_device n i a k t) = Return tt
  \/ SmartDevice_new n i a k t = Raise (mk_exc ConfigurationError "All device fields are required").
Proof.
  unfold SmartDevice_new, SmartDevice_post_init.
  destruct (forallb truthy _); cbn; [by left|by right].
Qed.

Lemma SmartDevice_kwargs_outcome (d : gmap string py_value) :
  (exists dev, SmartDevice_kwargs call_error_text d = Return dev /\
               SmartDevice_post_init dev = Return tt)
  \/ (exists e, SmartDevice_kwargs call_error_text d = Raise e /\
                (exc_type e = TypeError \/ exc_type e = ConfigurationError)).
Proof.
  unfold SmartDevice_kwargs. destruct (decide _) as [Hdom|Hdom]; [|right; eauto].
  destruct (d !! "name") as [n|]; [|right; eauto].
  destruct (d !! "device_id") as [i|]; [|right; eauto].
  destruct (d !! "ip_address") as [a|]; [|right; eauto].
  destruct (d !! "local_key") as [k|]; [|right; eauto].
  destruct (SmartDevice_new_outcome n i a k (default (VStr "outlet") (d !! "device_type")))
    as [[-> Hp]| ->]; [left|right]; eauto.
Qed.

Lemma comprehension_devices_outcome (l : list (gmap string py_value)) :
  (exists devs, comprehension (SmartDevice_kwargs call_error_text) l = Return devs /\
                Forall (fun dev => SmartDevice_post_init dev = Return tt) devs)
  \/ (exists e, comprehension (SmartDevice_kwargs call_error_text) l = Raise e /\
                (exc_type e = TypeError \/ exc_type e = ConfigurationError)).
Proof.
  induction l as [|d l IH]; [left; by exists []|]. cbn [comprehension].
  destruct (SmartDevice_kwargs_outcome d) as [(dev & -> & Hp)|(e & -> & He)]; [|right; eauto].
  destruct IH as [(devs & -> & Hd)|(e & -> & He)]; [left|right]; eauto.
Qed.

Lemma le_zero_outcome (v : py_value) :
  (exists b, le_zero v = Return b) \/ (exists e, le_zero v = Raise e /\ exc_type e = TypeError).
Proof. destruct v; cbn; eauto. Qed.

Lemma AssistantSettings_post_init_outcome (s : AssistantSettings) :
  AssistantSettings_post_init s = Return tt
  \/ (exists e, AssistantSettings_post_init s = Raise e /\
                (exc_type e = TypeError \/ exc_type e = ConfigurationError)).
Proof.
  unfold AssistantSettings_post_init.
  destruct (le_zero_outcome (speech_timeout s)) as [[b1 ->]|(e & -> & He)]; [|right; eauto].
  cbn. destruct b1; cbn; [right; eauto|].
  destruct (le_zero_outcome (phrase_time_limit s)) as [[b ->]|(e & -> & He)]; [|right; eauto].
  cbn. destruct b; [right; eauto|]. destruct (bool_decide _); cbn; [by left|right; eauto].
Qed.

Lemma AssistantSettings_kwargs_outcome (d : gmap string py_value) :
  (exists s, AssistantSettings_kwargs call_error_text d = Return s /\
             AssistantSettings_post_init s = Return tt)
  \/ (exists e, AssistantSettings_kwargs call_error_text d = Raise e /\
                (exc_type e = TypeError \/ exc_type e = ConfigurationError)).
Proof.
  unfold AssistantSettings_kwargs. destruct (decide _) as [Hdom|Hdom]; [|right; eauto].
  unfold AssistantSettings_new. set (s := mk_settings _ _ _ _ _ _).
  destruct (AssistantSettings_post_init_outcome s) as [Hs|(e & He & Ht)]; rewrite ?Hs, ?He;
    [left|right]; eauto.
Qed.

Lemma for_each_Forall {A} (f : A -> outcome unit) (l : list A) :
  Forall (fun x => f x = Return tt) l -> for_each f l = Return tt.
Proof. induction 1 as [|x l Hx _ IH]; [done|]. cbn. by rewrite Hx. Qed.

(** X12: whatever the dictionary, [from_dict] returns a configuration
    or raises a [ConfigurationError]: the [TypeError]s of ill-formed
    entries are converted, and nothing else gets out. *)
Theorem from_dict_raises_only_ConfigurationError (data : config_data) :
  (exists c, from_dict call_error_text data = Return c)
  \/ (exists msg, from_dict call_error_text data = Raise (mk_exc ConfigurationError msg)).
Proof using Type.
  unfold from_dict.
  destruct (comprehension_devices_outcome (default [] (data_smart_devices data)))
    as [(devs & -> & _)|([c m] & -> & [Hc|Hc])]; cbn in *; subst; cbn; [|right; eauto..].
  destruct (AssistantSettings_kwargs_outcome (default ∅ (data_settings data)))
    as [(s & -> & _)|([c m] & -> & [Hc|Hc])]; cbn in *; subst; cbn; [left|right..]; eauto.
Qed.

(** X13: a configuration [from_dict] returns passes [validate]: every
    device and the settings have been through [__post_init__]. *)
Theorem from_dict_validates (data : config_data) (c : Configuration) :
  from_dict call_error_text data = Return c -> validate c = Return tt.
Proof using Type.
  unfold from_dict.
  destruct (comprehension_devices_outcome (default [] (data_smart_devices data)))
    as [(devs & -> & Hd)|([k m] & -> & [Hc|Hc])]; cbn in *; subst; cbn; [|done..].
  destruct (AssistantSettings_kwargs_outcome (default ∅ (data_settings data)))
    as [(s & -> & Hs)|([k m] & -> & [Hc|Hc])]; cbn in *; subst; cbn; [|done..].
  intros [= <-]. unfold validate. cbn. by rewrite (for_each_Forall _ _ Hd).
Qed.

(** X14: saving and reloading a valid configuration brings back the
    devices, the shortcuts and the five settings [to_dict] writes, and
    saving the reloaded configuration writes the same dictionary
    again. *)
Theorem roundtrip_preserves_written_fields (c : Configuration) :
  Forall (fun d => SmartDevice_post_init d = Return tt) (smart_devices c) ->
  AssistantSettings_post_init (settings c) = Return tt ->
  exists c',
    from_dict call_error_text (to_dict c) = Return c' /\
    smart_devices c' = smart_devices c /\
    application_shortcuts c' = application_shortcuts c /\
    speech_timeout (settings c') = speech_timeout (settings c) /\
    phrase_time_limit (settings c') = phrase_time_limit (settings c) /\
    language (settings c') = language (settings c) /\
    log_level (settings c') = log_level (settings c) /\
    screenshots_folder (settings c') = screenshots_folder (settings c) /\
    to_dict c' = to_dict c.
Proof using Type.
  intros Hd Hs. eexists. split; [by apply roundtrip_up_to_wake_word|]. done.
Qed.

(** X15: a first device entry that lacks one of the four required keys,
    or has a key that is no field of the class, makes [from_dict] raise
    the invalid-format configuration error. *)
Theorem from_dict_rejects_bad_device_keys
    (d : gmap string py_value) (rest : list (gmap string py_value))
    (s : option (gmap string py_value)) (a : option (gmap string string)) :
  d !! "name" = None \/ d !! "device_id" = None \/ d !! "ip_address" = None
  \/ d !! "local_key" = None \/ ~ dom d ⊆ SmartDevice_fields ->
  from_dict call_error_text (mk_data (Some (d :: rest)) s a) =
  Raise (mk_exc ConfigurationError
           ("Invalid configuration format: " +:+ call_error_text "SmartDevice" d)).
Proof using Type.
  intros Hbad. unfold from_dict. cbn.
  assert (SmartDevice_kwargs call_error_text d
          = Raise (mk_exc TypeError (call_error_text "SmartDevice" d))) as ->; [|done].
  unfold SmartDevice_kwargs. destruct (decide _) as [Hdom|]; [|done].
  destruct Hbad as [->|[Hk|[Hk|[Hk|Hk]]]]; [done| | | |done].
  - rewrite Hk. by destruct (d !! "name").
  - rewrite Hk. by destruct (d !! "name"), (d !! "device_id").
  - rewrite Hk. by destruct (d !! "name"), (d !! "device_id"), (d !! "ip_address").
Qed.

End ConfigMore.

Section DeviceLookup.
Import PyStr.

Lemma first_device_named_lower (l : list SmartDevice) (q q' : string) :
  lower q = lower q' -> first_device_named l q = first_device_named l q'.
Proof. intros Hq. induction l as [|d l IH]; [done|]. cbn. by rewrite Hq, IH. Qed.

Lemma first_device_named_none (l : list SmartDevice) (q : string) :
  Forall (fun d' => exists s', name d' = VStr s' /\ lower s' <> lower q) l ->
  first_device_named l q = Return None.
Proof.
  induction 1 as [|d l (s & Hn & Hs) _ IH]; [done|]. cbn. rewrite Hn. cbn.
  by rewrite (proj2 (String.eqb_neq _ _) Hs).
Qed.

Lemma first_device_named_app (pre post : list SmartDevice) (d : SmartDevice) (s q : string) :
  name d = VStr s -> lower s = lower q ->
  Forall (fun d' => exists s', name d' = VStr s' /\ lower s' <> lower q) pre ->
  first_device_named (pre ++ d :: post) q = Return (Some d).
Proof.
  intros Hn Hs Hpre. induction Hpre as [|d' pre (s' & Hn' & Hs') _ IH]; cbn.
  - rewrite Hn. cbn. by rewrite Hs, String.eqb_refl.
  - rewrite Hn'. cbn. by rewrite (proj2 (String.eqb_neq _ _) Hs').
Qed.

(** X16: [get_device_by_name] returns the first device, in declaration
    order, whose name equals the wanted one up to letter case; it
    returns nothing when no device has such a name; and the answer does
    not depend on the case of the letters asked for. *)
Theorem get_device_by_name_first_match (c : Configuration) (q : string) :
  (forall pre d post s,
     smart_devices c = pre ++ d :: post ->
     name d = VStr s -> lower s = lower q ->
     Forall (fun d' => exists s', name d' = VStr s' /\ lower s' <> lower q) pre ->
     get_device_by_name c q = Return (Some d)) /\
  (Forall (fun d' => exists s', name d' = VStr s' /\ lower s' <> lower q) (smart_devices c) ->
   get_device_by_name c q = Return None) /\
  (forall q', differ_only_in_case q q' -> get_device_by_name c q' = get_device_by_name c q).
Proof.
  unfold get_device_by_name. split; [|split].
  - intros pre d post s -> Hn Hs Hpre. by apply (first_device_named_app _ _ _ s).
  - apply first_device_named_none.
  - intros q' Hq. apply first_device_named_lower. symmetry.
    by apply differ_only_in_case_lower.
Qed.

(** X17: a device whose name is not a string, met before any match,
    makes the lookup raise an [AttributeError]: nothing in the lookup
    guards the call of [lower]. *)
Theorem get_device_by_name_non_string_name
    (c : Configuration) (q : string) (pre post : list SmartDevice) (d : SmartDevice) :
  smart_devices c = pre ++ d :: post ->
  Forall (fun d' => exists s', name d' = VStr s' /\ lower s' <> lower q) pre ->
  (forall s, name d <> VStr s) ->
  get_device_by_name c q =
  Raise (mk_exc (OtherBuiltinError "AttributeError")
           ("'" +:+ type_name (name d) +:+ "' object has no attribute 'lower'")).
Proof.
  unfold get_device_by_name. intros -> Hpre Hd.
  induction Hpre as [|d' pre (s' & Hn' & Hs') _ IH]; cbn.
  - destruct (name d) as [| | |s]; try done. by destruct (Hd s).
  - rewrite Hn'. cbn. by rewrite (proj2 (String.eqb_neq _ _) Hs').
Qed.

(** X18: only a key that is its own lower-case form can ever be found:
    when no key of the shortcut table is lower-case, every lookup
    fails, whatever the query. *)
Theorem get_application_command_needs_lower_key (c : Configuration) :
  (forall k, is_Some (application_shortcuts c !! k) -> lower k <> k) ->
  forall q, get_application_command c q = None.
Proof.
  intros Hkeys q. unfold get_application_command.
  destruct (application_shortcuts c !! lower q) eqn:E; [|done].
  destruct (Hkeys (lower q)); [by rewrite E|apply lower_idemp].
Qed.

End DeviceLookup.

(** ** The application handler's shortcuts *)

Section ApplicationFacts.
Import PyStr.

Lemma default_apps_values : map_Forall (fun _ v => v <> "") default_apps.
Proof. apply (bool_decide_unpack _). vm_compute. exact I. Qed.

Lemma name_mappings_values : map_Forall (fun _ v => v <> "") name_mappings.
Proof. apply (bool_decide_unpack _). vm_compute. exact I. Qed.

Lemma opt_str_truthy_Some (x : option string) :
  opt_str_truthy x = true <-> exists s, x = Some s /\ s <> "".
Proof.
  destruct x as [[|c s]|]; cbn.
  - split; [done|]. by intros (s & [= <-] & Hs).
  - split; [|done]. intros _. by exists (String c s).
  - split; [done|]. by intros (s & ? & _).
Qed.

(** X19: the executable name handed to the launcher is never empty, and
    it does not depend on the letter case of the application name. *)
Theorem get_executable_name_nonempty (c : Configuration) (a : string) :
  _get_executable_name c a <> "" /\
  forall b, differ_only_in_case a b -> _get_executable_name c b = _get_executable_name c a.
Proof.
  split.
  - unfold _get_executable_name. cbv zeta.
    destruct (opt_str_truthy _) eqn:Et.
    + apply opt_str_truthy_Some in Et as (s & -> & Hs). done.
    + destruct (default_apps !! lower a) as [e|] eqn:Ed.
      { exact (default_apps_values _ _ Ed). }
      destruct (name_mappings !! lower a) as [e|] eqn:Em.
      { exact (name_mappings_values _ _ Em). }
      cbn. by destruct (lower a).
  - intros b Hab. unfold _get_executable_name.
    by rewrite (differ_only_in_case_lower _ _ Hab).
Qed.

(** X20: for a name that has a non-empty shortcut in the configuration
    and is also a default application, the launcher uses the
    configured executable while the listing shows the default one. *)
Theorem shortcut_precedence_differs (c : Configuration) (k v d : string) :
  lower k = k ->
  application_shortcuts c !! k = Some v -> v <> "" ->
  default_apps !! k = Some d ->
  _get_executable_name c k = v /\ list_application_shortcuts c !! k = Some d.
Proof.
  intros Hk Hv Hne Hd. split.
  - unfold _get_executable_name, get_application_command. cbv zeta.
    rewrite lower_idemp, Hk, Hv. cbn. by destruct v.
  - unfold list_application_shortcuts. by apply lookup_union_Some_l.
Qed.

Context {H : Type}.
Variable save_config : Configuration -> outcome unit.
Variable logger : string.
Implicit Types (st : state H Configuration).

(** The aggregate with its shortcut table replaced. *)
Lemma add_application_shortcut_run (app_name executable : string) st :
  let c' := mk_config (smart_devices (world st)) (settings (world st))
              (<[lower app_name := executable]> (application_shortcuts (world st))) in
  add_application_shortcut save_config logger app_name executable st =
  match save_config c' with
  | Return _ =>
      (Return tt,
       mk_state c'
         (trace st ++ [Logged logger INFO
                         ("Added application shortcut: " +:+ app_name +:+ " -> "
                          +:+ executable)]))
  | Raise e =>
      (Raise (mk_exc ApplicationLaunchError
                ("Failed to add application shortcut: " +:+ exc_str e)),
       mk_state c'
         (trace st ++ [Logged logger ERROR
                         ("Failed to add application shortcut: " +:+ exc_str e)]))
  | Interrupt i => (Interrupt i, mk_state c' (trace st))
  end.
Proof using Type.
  intros c'. unfold add_application_shortcut, try_except.
  rewrite M_bind_unfold. unfold set_shortcuts at 1. fold c'.
  rewrite M_bind_unfold. unfold call_save_config at 1. cbn [world].
  destruct (save_config c') as [[]|e|i]; [done| |done].
  by rewrite issubclass_Exception.
Qed.

(** X21: [add_application_shortcut] stores the executable under the
    lower-cased name, so that a lookup with any spelling of the name
    finds it; when saving fails the call raises an
    [ApplicationLaunchError] that carries the cause, and the shortcut
    stays in the aggregate all the same. *)
Theorem add_application_shortcut_stores (app_name executable : string) st :
  let r := add_application_shortcut save_config logger app_name executable st in
  let c' := mk_config (smart_devices (world st)) (settings (world st))
              (<[lower app_name := executable]> (application_shortcuts (world st))) in
  world r.2 = c' /\
  (forall q, differ_only_in_case app_name q ->
             get_application_command (world r.2) q = Some executable) /\
  (save_config c' = Return tt -> r.1 = Return tt) /\
  (forall e, save_config c' = Raise e ->
     r.1 = Raise (mk_exc ApplicationLaunchError
                    ("Failed to add application shortcut: " +:+ exc_str e))).
Proof using Type.
  intros r c'. subst r. rewrite add_application_shortcut_run. fold c'.
  assert (forall q, differ_only_in_case app_name q ->
                    get_application_command c' q = Some executable) as Hq.
  { intros q Hq. unfold get_application_command. cbn.
    rewrite <- (differ_only_in_case_lower _ _ Hq). apply lookup_insert_eq. }
  destruct (save_config c') as [[]|e|i]; cbn [fst snd world];
    (split; [done|]); (split; [done|]); split; try done; by intros ? [= <-].
Qed.

Lemma remove_application_shortcut_run (app_name : string) st :
  remove_application_shortcut save_config logger app_name st =
  match application_shortcuts (world st) !! lower app_name with
  | None =>
      (Raise (mk_exc ApplicationLaunchError
                ("Failed to remove application shortcut: "
                 +:+ "Application shortcut not found: " +:+ app_name)),
       mk_state (world st)
         (trace st ++ [Logged logger ERROR
                         ("Failed to remove application shortcut: "
                          +:+ "Application shortcut not found: " +:+ app_name)]))
  | Some _ =>
      let c' := mk_config (smart_devices (world st)) (settings (world st))
                  (delete (lower app_name) (application_shortcuts (world st))) in
      match save_config c' with
      | Return _ =>
          (Return tt,
           mk_state c'
             (trace st ++ [Logged logger INFO
                             ("Removed application shortcut: " +:+ app_name)]))
      | Raise e =>
          (Raise (mk_exc ApplicationLaunchError
                    ("Failed to remove application shortcut: " +:+ exc_str e)),
           mk_state c'
             (trace st ++ [Logged logger ERROR
                             ("Failed to remove application shortcut: " +:+ exc_str e)]))
      | Interrupt i => (Interrupt i, mk_state c' (trace st))
      end
  end.
Proof using Type.
  unfold remove_application_shortcut, try_except.
  destruct (application_shortcuts (world st) !! lower app_name) as [v|] eqn:E.
  - rewrite bool_decide_eq_true_2 by eauto.
    rewrite M_bind_unfold. unfold set_shortcuts at 1.
    rewrite M_bind_unfold. unfold call_save_config at 1. cbn [world].
    destruct (save_config _) as [[]|e|i]; [done| |done].
    by rewrite issubclass_Exception.
  - rewrite bool_decide_eq_false_2 by (by intros [? ?]). done.
Qed.

(** X22: removing a shortcut that is not in the table raises an
    [ApplicationLaunchError] naming it and leaves the aggregate as it
    was; removing one that is there deletes exactly that key. *)
Theorem remove_application_shortcut_effect (app_name : string) st :
  let r := remove_application_shortcut save_config logger app_name st in
  (application_shortcuts (world st) !! lower app_name = None ->
   r.1 = Raise (mk_exc ApplicationLaunchError
                  ("Failed to remove application shortcut: "
                   +:+ "Application shortcut not found: " +:+ app_name)) /\
   world r.2 = world st) /\
  (is_Some (application_shortcuts (world st) !! lower app_name) ->
   application_shortcuts (world r.2)
   = delete (lower app_name) (application_shortcuts (world st)) /\
   forall q, differ_only_in_case app_name q -> get_application_command (world r.2) q = None).
Proof using Type.
  intros r. subst r. rewrite remove_application_shortcut_run. split.
  - by intros ->.
  - intros [v ->]. cbv zeta.
    assert (forall q, differ_only_in_case app_name q ->
              delete (lower app_name) (application_shortcuts (world st)) !! lower q = None)
      as Hq.
    { intros q Hq. rewrite <- (differ_only_in_case_lower _ _ Hq). apply lookup_delete_eq. }
    by destruct (save_config _) as [[]|e|i].
Qed.

(** X23: adding a shortcut under a new name and removing it again,
    both saves succeeding, gives back the aggregate one started from. *)
Theorem add_then_remove_restores (app_name executable : string) st :
  application_shortcuts (world st) !! lower app_name = None ->
  (forall c, save_config c = Return tt) ->
  let st1 := (add_application_shortcut save_config logger app_name executable st).2 in
  (add_application_shortcut save_config logger app_name executable st).1 = Return tt /\
  (remove_application_shortcut save_config logger app_name st1).1 = Return tt /\
  world (remove_application_shortcut save_config logger app_name st1).2 = world st.
Proof using Type.
  intros Hnone Hsave st1. subst st1.
  rewrite add_application_shortcut_run, Hsave. cbn [fst snd].
  rewrite remove_application_shortcut_run. cbn [world application_shortcuts].
  rewrite lookup_insert_eq. cbv zeta. rewrite Hsave. cbn.
  split; [done|]. split; [done|].
  rewrite delete_insert_eq, delete_id by done. by destruct (world st).
Qed.

End ApplicationFacts.

(** ** The registry the factory creates *)

Section FactoryFacts.
Context {World : Type} `{Collaborators World}.
Import PyStr.
Implicit Types (reg : CommandRegistry builtin_handler) (st : state builtin_handler World).

Lemma remove_wake_word_lower reg (T : string) :
  lower (remove_wake_word reg T) = remove_wake_word reg T.
Proof.
  unfold remove_wake_word. destruct (startswith _ _).
  - by rewrite lower_strip, lower_slice_from, lower_strip, lower_idemp.
  - by rewrite lower_strip, lower_idemp.
Qed.

Lemma create_command_registry_commands (config : Configuration) st reg st' :
  _create_command_registry config st = (Return reg, st') ->
  _commands reg = [SystemControlCommand; BrowserCommand; ApplicationCommand;
                   SmartDeviceCommand; UtilityCommand] /\
  world st' = world st /\
  exists w, settings_wake_word (settings config) = VStr w /\ wake_word reg = lower w.
Proof.
  unfold _create_command_registry. rewrite M_bind_unfold.
  destruct (settings_wake_word (settings config)) as [| | |w]; cbn; try discriminate.
  destruct tinytuya; cbn; intros [= <- <-]; eauto.
Qed.

Lemma factory_get_handler reg (T : string) :
  _commands reg = [SystemControlCommand; BrowserCommand; ApplicationCommand;
                   SmartDeviceCommand; UtilityCommand] ->
  has_wake_word reg T = true ->
  let c := remove_wake_word reg T in
  get_handler reg T =
  if contains c "matikan komputer" || contains c "tutup semua aplikasi"
     || contains c "timer" || contains c "menit"
  then Some SystemControlCommand
  else if contains c "buka youtube" || contains c "cari di google"
          || contains c "buka website"
  then Some BrowserCommand
  else if contains c "jalankan aplikasi" then Some ApplicationCommand
  else if tinytuya && (contains c "nyalakan lampu" || contains c "hidupkan lampu"
                       || contains c "matikan lampu" || contains c "tutup lampu")
  then Some SmartDeviceCommand
  else if contains c "ambil screenshot" || contains c "screenshot"
          || contains c "tangkap layar"
  then Some UtilityCommand
  else None.
Proof.
  intros Hc Hw c. rewrite (get_handler_present _ _ Hw), Hc. fold c.
  assert (lower c = c) as Hl by apply remove_wake_word_lower.
  cbn [first_accepting can_handle builtin_command]. unfold any_pattern_in.
  cbn [existsb]. rewrite !Hl, !orb_false_r, !orb_assoc.
  destruct (contains c "matikan komputer" || contains c "tutup semua aplikasi"
            || contains c "timer" || contains c "menit"); [done|].
  destruct (contains c "buka youtube" || contains c "cari di google"
            || contains c "buka website"); [done|].
  destruct (contains c "jalankan aplikasi"); [done|].
  destruct tinytuya; cbn; [|done].
  by destruct (contains c "nyalakan lampu" || contains c "hidupkan lampu"
               || contains c "matikan lampu" || contains c "tutup lampu").
Qed.

(** X24: in the registry the factory creates, an utterance whose
    command contains "timer" or "menit" goes to the system handler,
    whatever else it says; when it names neither a shutdown nor the
    closing of applications the system handler rejects it, so
    [execute_command] raises the wrapped unknown-system-command error
    and no other handler is run. *)
Theorem timer_word_goes_to_system_handler
    (config : Configuration) st0' reg st1 (T : string) (context : context_t) st :
  _create_command_registry config st0' = (Return reg, st1) ->
  has_wake_word reg T = true ->
  let c := remove_wake_word reg T in
  contains c "timer" = true \/ contains c "menit" = true ->
  contains c "matikan komputer" = false ->
  contains c "tutup semua aplikasi" = false ->
  get_handler reg T = Some SystemControlCommand /\
  (execute_command reg T context st).1 =
  Raise (mk_exc CommandExecutionError
           ("Failed to execute command: Failed to execute system command: "
            +:+ "Unknown system command: " +:+ c)) /\
  executed_calls (trace (execute_command reg T context st).2) =
  executed_calls (trace st) ++ [(SystemControlCommand, c, context)].
Proof.
  intros Hreg Hw c Ht Hm Hc.
  destruct (create_command_registry_commands _ _ _ _ Hreg) as (Hcmds & _ & _).
  assert (get_handler reg T = Some SystemControlCommand) as Hg.
  { rewrite (factory_get_handler reg T Hcmds Hw). fold c. rewrite Hm, Hc. cbn.
    by destruct Ht as [-> | ->]; rewrite ?orb_true_r. }
  split; [done|].
  rewrite (execute_command_selected reg T context st _ Hw Hg). fold c.
  cbn [execute builtin_command]. unfold system_control_execute.
  assert (lower c = c) as Hl by apply remove_wake_word_lower.
  rewrite Hl, Hm, Hc.
  cbn [andb]. rewrite andb_false_r. cbn [fst snd trace].
  split; [done|]. unfold executed_calls. rewrite !omap_app. cbn.
  by rewrite (right_id_L [] (++)).
Qed.

(** X25: without [tinytuya] the factory's registry never selects the
    smart-device handler, and an utterance that only a lamp pattern
    could match finds no handler at all. *)
Theorem smart_device_disabled_without_tinytuya
    (config : Configuration) st0' reg st1 (T : string) :
  tinytuya = false ->
  _create_command_registry config st0' = (Return reg, st1) ->
  get_handler reg T <> Some SmartDeviceCommand /\
  (has_wake_word reg T = true ->
   let c := remove_wake_word reg T in
   can_handle SystemControlCommand c = false ->
   can_handle BrowserCommand c = false ->
   can_handle ApplicationCommand c = false ->
   can_handle UtilityCommand c = false ->
   forall context st,
     execute_command reg T context st =
     (Raise (mk_exc CommandExecutionError ("No handler found for command: " +:+ T)), st)).
Proof.
  intros Htt Hreg.
  destruct (create_command_registry_commands _ _ _ _ Hreg) as (Hcmds & _ & _).
  assert (forall c, can_handle SmartDeviceCommand c = false) as Hdev.
  { intros c. cbn. by rewrite Htt. }
  split.
  - intros Hg. pose proof (get_handler_wake_word _ _ _ Hg) as Hw.
    rewrite (get_handler_present _ _ Hw) in Hg.
    apply first_accepting_elem in Hg as [_ Hc]. by rewrite Hdev in Hc.
  - intros Hw c Hs Hb Ha Hu context st.
    assert (get_handler reg T = None) as Hg.
    { rewrite (get_handler_present _ _ Hw), Hcmds. fold c.
      cbn [first_accepting]. by rewrite Hs, Hb, Ha, Hdev, Hu. }
    unfold execute_command. by rewrite Hw, Hg.
Qed.

End FactoryFacts.

Section FactoryTable.
Context {World : Type} `{Collaborators World}.
Import PyStr.

(** X26: the priority order of the registry the factory creates.  With
    the wake word present the system handler is asked first, then the
    browser, the application launcher, the smart-device handler (only
    with [tinytuya]) and the utility handler; the first whose pattern
    occurs in the command is selected. *)
Theorem factory_dispatch_table
    (config : Configuration) (st0' : state builtin_handler World)
    (reg : CommandRegistry builtin_handler) st1 (T : string) :
  _create_command_registry config st0' = (Return reg, st1) ->
  has_wake_word reg T = true ->
  let c := remove_wake_word reg T in
  get_handler reg T =
  if contains c "matikan komputer" || contains c "tutup semua aplikasi"
     || contains c "timer" || contains c "menit"
  then Some SystemControlCommand
  else if contains c "buka youtube" || contains c "cari di google"
          || contains c "buka website"
  then Some BrowserCommand
  else if contains c "jalankan aplikasi" then Some ApplicationCommand
  else if tinytuya && (contains c "nyalakan lampu" || contains c "hidupkan lampu"
                       || contains c "matikan lampu" || contains c "tutup lampu")
  then Some SmartDeviceCommand
  else if contains c "ambil screenshot" || contains c "screenshot"
          || contains c "tangkap layar"
  then Some UtilityCommand
  else None.
Proof.
  intros Hreg Hw.
  destruct (create_command_registry_commands _ _ _ _ Hreg) as (Hcmds & _ & _).
  by apply factory_get_handler.
Qed.

(** X27: the factory lower-cases the configured wake word and creates
    the registry only when that setting is a string; any other value,
    which the settings record accepts unchecked, makes the creation
    raise an [AttributeError]. *)
Theorem create_command_registry_wake_word (config : Configuration)
    (st : state builtin_handler World) :
  (forall w, settings_wake_word (settings config) = VStr w ->
     exists reg st',
       _create_command_registry config st = (Return reg, st') /\
       wake_word reg = lower w /\
       reachable (World:=World) w reg) /\
  ((forall w, settings_wake_word (settings config) <> VStr w) ->
   _create_command_registry config st =
   (Raise (mk_exc (OtherBuiltinError "AttributeError")
             ("'" +:+ type_name (settings_wake_word (settings config))
              +:+ "' object has no attribute 'lower'")), st)).
Proof.
  split.
  - intros w Hw. unfold _create_command_registry. rewrite M_bind_unfold, Hw.
    cbn [str_lower].
    destruct tinytuya;
      (eexists _, _; split; [reflexivity|]; split; [reflexivity|];
       repeat (eapply (reachable_register w _ _ st); [|reflexivity]);
       apply reachable_init).
  - intros Hw. unfold _create_command_registry. rewrite M_bind_unfold.
    destruct (settings_wake_word (settings config)) as [| | |w]; cbn; try done.
    by destruct (Hw w).
Qed.

End FactoryTable.

(** ** More on the orchestrator *)

Section AssistantMore.
Context {H World : Type} `{EqDecision H} `{Command H World}.
Implicit Types (st : state H World) (reg : CommandRegistry H).


(** X28: [process_command] hands back what the registry's
    [execute_command] gave: the value as it is, or the very exception,
    re-raised after one ERROR record and not wrapped a second time. *)
Theorem process_command_passes_through (self : VoiceAssistant) (command : string)
    (context : context_t) st (r : outcome py_value) st2 :
  let st1 := mk_state (world st)
    (trace st ++ [Logged assistant_logger INFO
                    ("Processing single command: " +:+ command)]) in
  port_execute_command (command_registry self) command context st1 = (r, st2) ->
  process_command self command context st =
  (r,
   match r with
   | Raise e =>
       mk_state (world st2)
         (trace st2 ++ [Logged assistant_logger ERROR
                          ("Error processing command '" +:+ command +:+ "': "
                           +:+ exc_str e)])
   | _ => st2
   end).
Proof.
  intros st1 Hr. unfold process_command, try_except.
  rewrite M_bind_unfold. unfold log at 1. fold st1. rewrite Hr.
  destruct r as [v|e|i]; [done| |done].
  by rewrite issubclass_Exception.
Qed.


End AssistantMore.

(** ** The device a lamp command acts on *)

Section SmartDeviceFacts.
Import PyStr.

Lemma device_with_name_eq (l : list SmartDevice) (n : string) :
  device_with_name l n = first_device_named l n.
Proof. induction l as [|d l IH]; [done|]. cbn. by rewrite IH. Qed.

(** X30: asked for a device by a non-empty name, [_get_device] answers
    as [get_device_by_name] does; asked without a name, or with the
    empty name, it answers with the first configured device, and with
    nothing when no device is configured; [get_device_by_name] asked
    for the empty name finds nothing among devices with names. *)
Theorem get_device_choice (c : Configuration) :
  (forall n, n <> "" -> _get_device c (Some n) = get_device_by_name c n) /\
  (forall dn, dn = None \/ dn = Some "" ->
              _get_device c dn = Return (head (smart_devices c))) /\
  (Forall (fun d => exists s, name d = VStr s /\ s <> "") (smart_devices c) ->
   get_device_by_name c "" = Return None).
Proof.
  unfold _get_device, get_device_by_name. split; [|split].
  - intros n Hn. destruct (smart_devices c) as [|d l]; [done|].
    destruct n as [|x n]; [done|]. cbn [opt_str_truthy String.eqb negb default].
    apply device_with_name_eq.
  - intros dn [-> | ->]; by destruct (smart_devices c).
  - intros Hall. apply first_device_named_none.
    eapply Forall_impl; [exact Hall|]. intros d (s0 & Hn & Hs). exists s0.
    split; [done|]. cbn. by rewrite lower_empty_iff.
Qed.

End SmartDeviceFacts.

(** ** Instances of the further properties *)

Section MoreWitnesses.
Import PyStr.

Lemma AssistantSettings_new_accepts_iff_witness :
  AssistantSettings_new (VInt 0) (VInt 5) (VStr "id-ID") (VStr "VERBOSE")
    (VStr "screenshots") (VStr "peter")
  = Raise (mk_exc ConfigurationError "Timeout values must be positive") /\
  AssistantSettings_new (VInt 5) (VInt 5) (VStr "id-ID") (VStr "INFO")
    (VStr "screenshots") (VStr "peter")
  = Return AssistantSettings_default.
Proof.
  split.
  - apply (proj1 (proj2 (AssistantSettings_new_accepts_iff 0 5 "id-ID" "VERBOSE"
                           "screenshots" "peter"))).
    left. lia.
  - apply (proj1 (AssistantSettings_new_accepts_iff 5 5 "id-ID" "INFO"
                    "screenshots" "peter")).
    split; [lia|]. split; [lia|]. apply elem_of_cons. right. apply elem_of_cons. by left.
Defined.

Lemma from_dict_validates_witness :
  from_dict (fun _ _ => "bad call") (to_dict jarvis_config)
  = Return (mk_config (smart_devices jarvis_config)
              (reloaded_settings (settings jarvis_config))
              (application_shortcuts jarvis_config)) /\
  validate (mk_config (smart_devices jarvis_config)
              (reloaded_settings (settings jarvis_config))
              (application_shortcuts jarvis_config)) = Return tt.
Proof.
  assert (from_dict (fun _ _ => "bad call") (to_dict jarvis_config)
          = Return (mk_config (smart_devices jarvis_config)
                      (reloaded_settings (settings jarvis_config))
                      (application_shortcuts jarvis_config))) as Hf by reflexivity.
  split; [exact Hf|]. exact (from_dict_validates _ _ _ Hf).
Defined.

Lemma roundtrip_preserves_written_fields_witness :
  Forall (fun d => SmartDevice_post_init d = Return tt) (smart_devices jarvis_config) /\
  AssistantSettings_post_init (settings jarvis_config) = Return tt /\
  exists c',
    from_dict (fun _ _ => "bad call") (to_dict jarvis_config) = Return c' /\
    smart_devices c' = smart_devices jarvis_config /\
    to_dict c' = to_dict jarvis_config.
Proof.
  assert (Forall (fun d => SmartDevice_post_init d = Return tt)
            (smart_devices jarvis_config)) as Hd by (repeat constructor).
  assert (AssistantSettings_post_init (settings jarvis_config) = Return tt) as Hs
    by reflexivity.
  split; [exact Hd|]. split; [exact Hs|].
  destruct (roundtrip_preserves_written_fields (fun _ _ => "bad call") jarvis_config Hd Hs)
    as (c' & Hf & Hdev & _ & _ & _ & _ & _ & _ & Hsave).
  exists c'. split; [exact Hf|]. split; [exact Hdev|exact Hsave].
Defined.

Lemma from_dict_rejects_bad_device_keys_witness :
  ({[ "name" := VStr "Lamp" ]} : gmap string py_value) !! "device_id" = None /\
  from_dict (fun _ _ => "bad call") (mk_data (Some [ {[ "name" := VStr "Lamp" ]} ]) None None)
  = Raise (mk_exc ConfigurationError "Invalid configuration format: bad call").
Proof.
  assert (({[ "name" := VStr "Lamp" ]} : gmap string py_value) !! "device_id" = None) as Hk
    by reflexivity.
  split; [exact Hk|].
  exact (from_dict_rejects_bad_device_keys (fun _ _ => "bad call")
           {[ "name" := VStr "Lamp" ]} [] None None (or_intror (or_introl Hk))).
Defined.

Lemma get_device_by_name_first_match_witness :
  get_device_by_name jarvis_config "SMART LAMP"
  = Return (Some (mk_device (VStr "Smart Lamp") (VStr "another_device_id_here")
                    (VStr "192.168.1.101") (VStr "another_local_key_here") (VStr "light"))).
Proof.
  apply (proj1 (get_device_by_name_first_match jarvis_config "SMART LAMP") [] _ []
           "Smart Lamp"); [reflexivity|reflexivity|reflexivity|constructor].
Defined.

Lemma get_device_by_name_non_string_name_witness :
  smart_devices numbered_device_config
  = [] ++ mk_device (VInt 5) (VStr "id5") (VStr "192.168.1.105") (VStr "key5")
            (VStr "outlet") :: [] /\
  SmartDevice_post_init
    (mk_device (VInt 5) (VStr "id5") (VStr "192.168.1.105") (VStr "key5") (VStr "outlet"))
  = Return tt /\
  get_device_by_name numbered_device_config "lamp"
  = Raise (mk_exc (OtherBuiltinError "AttributeError")
             "'int' object has no attribute 'lower'").
Proof.
  split; [reflexivity|]. split; [reflexivity|].
  apply (get_device_by_name_non_string_name numbered_device_config "lamp" [] []
           (mk_device (VInt 5) (VStr "id5") (VStr "192.168.1.105") (VStr "key5")
              (VStr "outlet"))); [reflexivity|constructor|discriminate].
Defined.

Lemma get_application_command_needs_lower_key_witness :
  (forall k, is_Some (application_shortcuts capital_key_config !! k) -> lower k <> k) /\
  get_application_command capital_key_config "Notepad" = None /\
  get_application_command capital_key_config "notepad" = None.
Proof.
  assert (forall k, is_Some (application_shortcuts capital_key_config !! k) -> lower k <> k)
    as Hk.
  { intros k [v Hv]. cbn in Hv. apply lookup_singleton_Some in Hv as [<- _]. discriminate. }
  split; [exact Hk|].
  split; exact (get_application_command_needs_lower_key capital_key_config Hk _).
Defined.

Lemma get_executable_name_nonempty_witness :
  differ_only_in_case "Chrome" "CHROME" /\
  _get_executable_name jarvis_config "CHROME" = _get_executable_name jarvis_config "Chrome".
Proof.
  assert (differ_only_in_case "Chrome" "CHROME") as Hd.
  { repeat (constructor;
            [(left; reflexivity) || (right; left; reflexivity) || (right; right; reflexivity)|]).
    constructor. }
  split; [exact Hd|].
  exact (proj2 (get_executable_name_nonempty jarvis_config "Chrome") "CHROME" Hd).
Defined.

Lemma shortcut_precedence_differs_witness :
  lower "notepad" = "notepad" /\
  application_shortcuts override_config !! "notepad" = Some "notepad++.exe" /\
  "notepad++.exe" <> "" /\
  default_apps !! "notepad" = Some "notepad.exe" /\
  _get_executable_name override_config "notepad" = "notepad++.exe" /\
  list_application_shortcuts override_config !! "notepad" = Some "notepad.exe".
Proof.
  assert (lower "notepad" = "notepad") as Hk by reflexivity.
  assert (application_shortcuts override_config !! "notepad" = Some "notepad++.exe") as Hv
    by reflexivity.
  assert ("notepad++.exe" <> "") as Hne by discriminate.
  assert (default_apps !! "notepad" = Some "notepad.exe") as Hd by reflexivity.
  split; [exact Hk|]. split; [exact Hv|]. split; [exact Hne|]. split; [exact Hd|].
  exact (shortcut_precedence_differs override_config "notepad" "notepad++.exe"
           "notepad.exe" Hk Hv Hne Hd).
Defined.

Lemma add_application_shortcut_stores_witness :
  differ_only_in_case "Gimp" "GIMP" /\
  (add_application_shortcut (H:=scripted_handler) save_fails "app" "Gimp" "gimp.exe"
     (mk_state jarvis_config [])).1
  = Raise (mk_exc ApplicationLaunchError
             "Failed to add application shortcut: Error saving config file: disk full") /\
  get_application_command
    (world (add_application_shortcut (H:=scripted_handler) save_fails "app" "Gimp"
              "gimp.exe" (mk_state jarvis_config [])).2) "GIMP"
  = Some "gimp.exe".
Proof.
  assert (differ_only_in_case "Gimp" "GIMP") as Hd.
  { repeat (constructor;
            [(left; reflexivity) || (right; left; reflexivity) || (right; right; reflexivity)|]).
    constructor. }
  split; [exact Hd|].
  destruct (add_application_shortcut_stores (H:=scripted_handler) save_fails "app" "Gimp"
              "gimp.exe" (mk_state jarvis_config [])) as (_ & Hq & _ & Hfail).
  split; [exact (Hfail _ eq_refl)|exact (Hq "GIMP" Hd)].
Defined.

Lemma remove_application_shortcut_effect_witness :
  application_shortcuts jarvis_config !! lower "Gimp" = None /\
  (remove_application_shortcut (H:=scripted_handler) save_ok "app" "Gimp"
     (mk_state jarvis_config [])).1
  = Raise (mk_exc ApplicationLaunchError
             "Failed to remove application shortcut: Application shortcut not found: Gimp") /\
  world (remove_application_shortcut (H:=scripted_handler) save_ok "app" "Gimp"
           (mk_state jarvis_config [])).2 = jarvis_config.
Proof.
  assert (application_shortcuts jarvis_config !! lower "Gimp" = None) as Hn by reflexivity.
  split; [exact Hn|].
  exact (proj1 (remove_application_shortcut_effect (H:=scripted_handler) save_ok "app"
                  "Gimp" (mk_state jarvis_config [])) Hn).
Defined.

Lemma add_then_remove_restores_witness :
  application_shortcuts jarvis_config !! lower "Gimp" = None /\
  (forall c, save_ok c = Return tt) /\
  world (remove_application_shortcut (H:=scripted_handler) save_ok "app" "Gimp"
           (add_application_shortcut (H:=scripted_handler) save_ok "app" "Gimp" "gimp.exe"
              (mk_state jarvis_config [])).2).2
  = jarvis_config.
Proof.
  assert (application_shortcuts jarvis_config !! lower "Gimp" = None) as Hn by reflexivity.
  assert (forall c, save_ok c = Return tt) as Hs by reflexivity.
  split; [exact Hn|]. split; [exact Hs|].
  exact (proj2 (proj2 (add_then_remove_restores (H:=scripted_handler) save_ok "app" "Gimp"
                         "gimp.exe" (mk_state jarvis_config []) Hn Hs))).
Defined.

Lemma get_device_choice_witness :
  "lamp" <> "" /\
  _get_device jarvis_config (Some "lamp") = get_device_by_name jarvis_config "lamp" /\
  _get_device jarvis_config (Some "") = Return (head (smart_devices jarvis_config)) /\
  get_device_by_name jarvis_config "" = Return None.
Proof.
  assert ("lamp" <> "") as Hn by discriminate.
  destruct (get_device_choice jarvis_config) as (Hname & Hnone & Hempty).
  split; [exact Hn|]. split; [exact (Hname "lamp" Hn)|].
  split; [exact (Hnone (Some "") (or_intror eq_refl))|].
  apply Hempty. repeat constructor. exists "Smart Lamp". split; [reflexivity|discriminate].
Defined.

End MoreWitnesses.

Section FactoryWitnesses.
Import PyStr.

Lemma timer_word_goes_to_system_handler_witness :
  (exists st1,
     _create_command_registry (H:=scripted_collaborators true) jarvis_config builtin_st0
     = (Return jarvis_registry, st1)) /\
  has_wake_word jarvis_registry "jarvis cari di google resep 30 menit" = true /\
  contains (remove_wake_word jarvis_registry "jarvis cari di google resep 30 menit") "menit"
  = true /\
  can_handle (Command:=scenario_builtin true) BrowserCommand
    (remove_wake_word jarvis_registry "jarvis cari di google resep 30 menit") = true /\
  get_handler (H0:=scenario_builtin true) jarvis_registry
    "jarvis cari di google resep 30 menit" = Some SystemControlCommand /\
  (execute_command (H0:=scenario_builtin true) jarvis_registry
     "jarvis cari di google resep 30 menit" None builtin_st0).1
  = Raise (mk_exc CommandExecutionError
             ("Failed to execute command: Failed to execute system command: "
              +:+ "Unknown system command: cari di google resep 30 menit")).
Proof.
  assert (exists st1,
            _create_command_registry (H:=scripted_collaborators true) jarvis_config builtin_st0
            = (Return jarvis_registry, st1)) as [st1 Hreg]
    by (eexists (mk_state _ _); vm_compute; reflexivity).
  split; [by exists st1|].
  assert (has_wake_word jarvis_registry "jarvis cari di google resep 30 menit" = true) as Hw
    by reflexivity.
  assert (contains (remove_wake_word jarvis_registry "jarvis cari di google resep 30 menit")
            "menit" = true) as Hm by reflexivity.
  split; [exact Hw|]. split; [exact Hm|]. split; [reflexivity|].
  destruct (timer_word_goes_to_system_handler (H:=scripted_collaborators true)
              jarvis_config builtin_st0 jarvis_registry st1
              "jarvis cari di google resep 30 menit" None builtin_st0 Hreg Hw
              (or_intror Hm) eq_refl eq_refl) as (Hg & Hrun & _).
  split; [exact Hg|exact Hrun].
Defined.

Lemma smart_device_disabled_without_tinytuya_witness :
  tinytuya (Collaborators:=scripted_collaborators false) = false /\
  (exists st1,
     _create_command_registry (H:=scripted_collaborators false) jarvis_config builtin_st0
     = (Return jarvis_registry, st1)) /\
  execute_command (H0:=scenario_builtin false) jarvis_registry "jarvis nyalakan lampu" None
    builtin_st0
  = (Raise (mk_exc CommandExecutionError "No handler found for command: jarvis nyalakan lampu"),
     builtin_st0) /\
  get_handler (H0:=scenario_builtin true) jarvis_registry "jarvis nyalakan lampu"
  = Some SmartDeviceCommand.
Proof.
  assert (tinytuya (Collaborators:=scripted_collaborators false) = false) as Ht
    by reflexivity.
  assert (exists st1,
            _create_command_registry (H:=scripted_collaborators false) jarvis_config
              builtin_st0
            = (Return jarvis_registry, st1)) as [st1 Hreg]
    by (eexists (mk_state _ _); vm_compute; reflexivity).
  split; [exact Ht|]. split; [by exists st1|]. split; [|reflexivity].
  exact (proj2 (smart_device_disabled_without_tinytuya (H:=scripted_collaborators false)
                  jarvis_config builtin_st0 jarvis_registry st1 "jarvis nyalakan lampu"
                  Ht Hreg)
           eq_refl eq_refl eq_refl eq_refl eq_refl None builtin_st0).
Defined.

Lemma factory_dispatch_table_witness :
  (exists st1,
     _create_command_registry (H:=scripted_collaborators true) jarvis_config builtin_st0
     = (Return jarvis_registry, st1)) /\
  has_wake_word jarvis_registry "jarvis jalankan aplikasi notepad" = true /\
  get_handler (H0:=scenario_builtin true) jarvis_registry "jarvis jalankan aplikasi notepad"
  = Some ApplicationCommand.
Proof.
  assert (exists st1,
            _create_command_registry (H:=scripted_collaborators true) jarvis_config builtin_st0
            = (Return jarvis_registry, st1)) as [st1 Hreg]
    by (eexists (mk_state _ _); vm_compute; reflexivity).
  split; [by exists st1|].
  assert (has_wake_word jarvis_registry "jarvis jalankan aplikasi notepad" = true) as Hw
    by reflexivity.
  split; [exact Hw|].
  exact (factory_dispatch_table (H:=scripted_collaborators true) jarvis_config builtin_st0
           jarvis_registry st1 "jarvis jalankan aplikasi notepad" Hreg Hw).
Defined.

Lemma create_command_registry_wake_word_witness :
  settings_wake_word (settings jarvis_config) = VStr "jarvis" /\
  (exists reg st',
     _create_command_registry (H:=scripted_collaborators true) jarvis_config builtin_st0
     = (Return reg, st') /\
     wake_word reg = "jarvis") /\
  _create_command_registry (H:=scripted_collaborators true)
    (mk_config [] (mk_settings (VInt 5) (VInt 5) (VStr "id-ID") (VStr "INFO")
                     (VStr "screenshots") (VInt 7)) ∅) builtin_st0
  = (Raise (mk_exc (OtherBuiltinError "AttributeError")
              "'int' object has no attribute 'lower'"), builtin_st0).
Proof.
  assert (settings_wake_word (settings jarvis_config) = VStr "jarvis") as Hw by reflexivity.
  split; [exact Hw|]. split.
  - destruct (proj1 (create_command_registry_wake_word (H:=scripted_collaborators true)
                       jarvis_config builtin_st0) "jarvis" Hw) as (reg & st' & Hc & Hl & _).
    exists reg, st'. split; [exact Hc|exact Hl].
  - apply (proj2 (create_command_registry_wake_word (H:=scripted_collaborators true)
                    (mk_config [] (mk_settings (VInt 5) (VInt 5) (VStr "id-ID") (VStr "INFO")
                                     (VStr "screenshots") (VInt 7)) ∅) builtin_st0)).
    intros w. discriminate.
Defined.

Lemma process_command_passes_through_witness :
  port_execute_command (port_of_registry failing_registry) "peter buka youtube" None
    (mk_state [] [Logged assistant_logger INFO
                    "Processing single command: peter buka youtube"])
  = (Raise (mk_exc CommandExecutionError
              "Failed to execute command: Application not found: youtube"),
     mk_state ["buka youtube"]
       [Logged assistant_logger INFO "Processing single command: peter buka youtube";
        Executed failing_handler "buka youtube" None;
        Logged registry_logger ERROR
          "Error executing command 'peter buka youtube': Application not found: youtube"]) /\
  (process_command (mk_assistant (port_of_registry failing_registry) true)
     "peter buka youtube" None st0).1
  = Raise (mk_exc CommandExecutionError
             "Failed to execute command: Application not found: youtube").
Proof.
  pose (r := Raise (A:=py_value)
               (mk_exc CommandExecutionError
                  "Failed to execute command: Application not found: youtube")).
  pose (st2 := mk_state (H:=scripted_handler) ["buka youtube"]
       [Logged assistant_logger INFO "Processing single command: peter buka youtube";
        Executed failing_handler "buka youtube" None;
        Logged registry_logger ERROR
          "Error executing command 'peter buka youtube': Application not found: youtube"]).
  assert (port_execute_command (port_of_registry failing_registry) "peter buka youtube" None
            (mk_state [] [Logged assistant_logger INFO
                            "Processing single command: peter buka youtube"])
          = (r, st2)) as Hr by reflexivity.
  split; [exact Hr|].
  exact (f_equal fst (process_command_passes_through
                        (mk_assistant (port_of_registry failing_registry) true)
                        "peter buka youtube" None st0 r st2 Hr)).
Defined.


End FactoryWitnesses.

(** ** What the processing step lets through *)

Section ProcessingStepLimits.


End ProcessingStepLimits.
